(** * Kudora: the transaction admission ("ante") pipeline and the one-time
      EVM set-up, embedded from the Go sources.

    Sources embedded here:
    - [app/ante]: [HandlerOptions], [wasmDecorators], [NewCosmosAnteHandler],
      [NewMonoEVMAnteHandler];
    - [app]: the two [NewAnteHandler] constructors (the delegating one and
      the older inline one), [ChainsCoinInfo], [EVMAppOptions], [initEVM],
      [setBaseDenom], [parseEVMChainID], [setAnteHandler] with the listener
      literal it installs, and the defaulting block of
      [registerWasmModules].

    Library code (cosmos-sdk, cosmos/evm, wasmd, ibc-go, the Go standard
    library) is not part of the repository.  Its types are abstract, its
    operations are fields of the classes [EvmLib], [Collaborators] and
    [AnteSemantics], and the theorems of parts I and II hold for all their
    instances.  The one library constructor the repository documents to
    panic, [wasmkeeper.NewLimitSimulationGasDecorator] on a limit of zero,
    is modelled with that panic. *)

From Stdlib Require Import ZArith NArith Lia Ascii String.
From stdpp Require Import base strings gmap list.

Open Scope string_scope.
Open Scope list_scope.

(** ** Go values shared by both parts *)

(** Go [error] values.  The constructors are the ways the embedded code
    builds errors; [lib_error] stands for any error made by library code. *)
Inductive error : Type :=
| errors_New (text : string)
| fmt_Errorf (format : string) (args : list string)
(* a format ending in the verb %w, with the error it wraps *)
| fmt_Errorf_w (format : string) (args : list string) (wrapped : error)
| errorsmod_Wrapf (err : error) (format : string) (args : list string)
| ErrUnknownExtensionOptions
| lib_error (pkg : string) (code : N).

(** A Go evaluation either completes with a value or panics. *)
Inductive Exec (A : Type) : Type :=
| Done (a : A)
| Panicked (reason : string).
Arguments Done {A} a.
Arguments Panicked {A} reason.

#[global] Instance Exec_ret : MRet Exec := fun _ a => Done a.
#[global] Instance Exec_bind : MBind Exec := fun _ _ k m =>
  match m with
  | Done a => k a
  | Panicked r => Panicked r
  end.

(** The message of the run-time panic on a nil dereference or on a call of
    a nil func value. *)
Definition nilDereference : string :=
  "runtime error: invalid memory address or nil pointer dereference".

(** Dereferencing a Go pointer: [nil] panics. *)
Definition deref {A : Type} (p : option A) : Exec A :=
  match p with
  | Some a => Done a
  | None => Panicked nilDereference
  end.

(** [x == nil] for a pointer, interface or func value. *)
Definition is_nil {A : Type} (p : option A) : bool :=
  match p with
  | Some _ => false
  | None => true
  end.

(** [strings.Split(s, sep)] for a one-byte separator: the pieces of [s]
    between occurrences of [sep]; never empty. *)
Fixpoint strings_Split (s : string) (sep : ascii) : list string :=
  match s with
  | EmptyString => [EmptyString]
  | String c rest =>
      if Ascii.eqb c sep then EmptyString :: strings_Split rest sep
      else match strings_Split rest sep with
           | [] => [String c EmptyString]
           | piece :: pieces => String c piece :: pieces
           end
  end.

(** [l[0]] and [l[len(l)-1]] on a slice of strings.  Go panics on an empty
    slice; [strings_Split] never returns one ([strings_Split_cons] below),
    so the default is never taken where the embedded code indexes. *)
Definition index0 (l : list string) : string := hd EmptyString l.
Definition indexLast (l : list string) : string := List.last l EmptyString.

(** ** Part I: chain identity and the one-time EVM set-up ([app]) *)

Module evmtypes.
Record EvmCoinInfo : Type := {
  Denom : string;
  ExtendedDenom : string;
  DisplayDenom : string;
  Decimals : N
}.
Definition EighteenDecimals : N := 18.
End evmtypes.

(** [math.LegacyDec]: the decimal [i * 10^-prec]. *)
Inductive LegacyDec : Type := LegacyNewDecWithPrec (i : Z) (prec : Z).
Definition LegacyOneDec : LegacyDec := LegacyNewDecWithPrec 1 0.

(** The library operations [initEVM] calls.  [Globals] is the process-wide
    state they mutate (the SDK's denomination registry, the sealed EVM
    configuration). *)
Class EvmLib : Type := {
  Globals : Type;
  sdk_RegisterDenom : string -> LegacyDec -> Globals -> option error * Globals;
  strings_TrimSpace : string -> string;
  (* strconv.ParseUint(s, 10, 64) *)
  strconv_ParseUint : string -> N + error;
  ChainConfig : Type;
  evmtypes_DefaultChainConfig : N -> ChainConfig;
  (* NewEVMConfigurator().WithChainConfig(c).WithEVMCoinInfo(ci).Configure() *)
  EVMConfigurator_Configure :
    ChainConfig -> evmtypes.EvmCoinInfo -> Globals -> option error * Globals
}.

Module app_config.

Definition DefaultChainID : string := "kudora_12000-1".
Definition BaseDenom : string := "kud".
Definition DisplayDenom : string := "kudos".
Definition BaseDenomUnit : Z := 18.
Definition EVMChainID : N := 12000.
Definition CoinType : N := 60.

Definition kudoraCoinInfo : evmtypes.EvmCoinInfo :=
  {| evmtypes.Denom := BaseDenom;
     evmtypes.ExtendedDenom := BaseDenom;
     evmtypes.DisplayDenom := DisplayDenom;
     evmtypes.Decimals := evmtypes.EighteenDecimals |}.

(** The map literal [ChainsCoinInfo]: three keys, the same value. *)
Definition ChainsCoinInfo : gmap string evmtypes.EvmCoinInfo :=
  <[DefaultChainID := kudoraCoinInfo]>
    (<["kudora_12000" := kudoraCoinInfo]>
       (<["kudora_9000-1" := kudoraCoinInfo]> ∅)).

Section WithLib.
Context `{L : EvmLib}.

(* [math.LegacyNewDecWithPrec] panics for a precision above 18; every
   coin info [initEVM] passes here has 18 decimals. *)
Definition setBaseDenom (ci : evmtypes.EvmCoinInfo) (g : Globals)
  : option error * Globals :=
  match sdk_RegisterDenom (evmtypes.DisplayDenom ci) LegacyOneDec g with
  | (Some err, g1) =>
      (Some (fmt_Errorf_w "failed to register display denom %s: %w" [evmtypes.DisplayDenom ci] err), g1)
  | (None, g1) =>
      let baseDenomPrecision :=
        LegacyNewDecWithPrec 1 (Z.of_N (evmtypes.Decimals ci)) in
      match sdk_RegisterDenom (evmtypes.Denom ci) baseDenomPrecision g1 with
      | (Some err, g2) =>
          (Some (fmt_Errorf_w "failed to register base denom %s: %w" [evmtypes.Denom ci] err), g2)
      | (None, g2) => (None, g2)
      end
  end.

Definition parseEVMChainID (chainID : string) : N + error :=
  let chainID := strings_TrimSpace chainID in
  if decide (chainID = "") then inr (fmt_Errorf "empty chain id" [])
  else
    match strconv_ParseUint chainID with
    | inl n => inl n
    | inr _ =>
        let parts := strings_Split chainID "_"%char in
        if decide (length parts < 2)%nat then
          inr (fmt_Errorf "cannot extract evm chain id from %q" [chainID])
        else
          let last := indexLast parts in
          let evmPart := index0 (strings_Split last "-"%char) in
          match strconv_ParseUint evmPart with
          | inr err =>
              inr (fmt_Errorf_w "invalid evm chain id %q in %q: %w" [evmPart; chainID] err)
          | inl n => inl n
          end
    end.

Definition initEVM (chainID : string) (g : Globals) : option error * Globals :=
  let chainID := if decide (chainID = "") then DefaultChainID else chainID in
  let baseID := index0 (strings_Split chainID "-"%char) in
  match
    match ChainsCoinInfo !! baseID with
    | Some coinInfo => Some coinInfo
    | None => ChainsCoinInfo !! chainID
    end
  with
  | None =>
      (Some (fmt_Errorf "unknown chain id: %s (not found in ChainsCoinInfo)" [chainID]), g)
  | Some coinInfo =>
      match setBaseDenom coinInfo g with
      | (Some err, g1) =>
          (Some (fmt_Errorf_w "failed to set base denom: %w" [] err), g1)
      | (None, g1) =>
          match parseEVMChainID chainID with
          | inr err =>
              (Some (fmt_Errorf_w "failed to parse evm chain id from %q: %w" [chainID] err), g1)
          | inl evmChainID =>
              let ethCfg := evmtypes_DefaultChainConfig evmChainID in
              match EVMConfigurator_Configure ethCfg coinInfo g1 with
              | (Some err, g2) =>
                  (Some (fmt_Errorf_w "failed to configure EVM: %w" [] err), g2)
              | (None, g2) => (None, g2)
              end
          end
      end
  end.

(** The package-level variables [evmInitOnce] and [evmInitErr] together
    with the library state.  [initRuns] is a ghost field: the chain ids
    [initEVM] has been run with, oldest first. *)
Record Process : Type := {
  evmInitOnce : bool;
  evmInitErr : option error;
  globals : Globals;
  initRuns : list string
}.

Definition startProcess (g : Globals) : Process :=
  {| evmInitOnce := false; evmInitErr := None; globals := g; initRuns := [] |}.

(** [sync.Once.Do(f)]: runs [f] unless an earlier [Do] already did; the
    whole call is one atomic action, as the Once's mutex makes it for
    every other caller of [Do]. *)
Definition Once_Do (f : Process -> Process) (p : Process) : Process :=
  if evmInitOnce p then p
  else
    let p' := f p in
    {| evmInitOnce := true; evmInitErr := evmInitErr p';
       globals := globals p'; initRuns := initRuns p' |}.

(** The function literal passed to [evmInitOnce.Do]. *)
Definition initClosure (chainID : string) (p : Process) : Process :=
  let '(err, g) := initEVM chainID (globals p) in
  {| evmInitOnce := evmInitOnce p; evmInitErr := err; globals := g;
     initRuns := initRuns p ++ [chainID] |}.

(** [EVMAppOptions], called by one goroutine with nobody interleaved. *)
Definition EVMAppOptions (chainID : string) (p : Process)
  : option error * Process :=
  let p' := Once_Do (initClosure chainID) p in
  (evmInitErr p', p').

(** Sequential calls, one after the other: the results, in call order,
    and the final process state. *)
Fixpoint callAll (chainIDs : list string) (p : Process)
  : list (option error) * Process :=
  match chainIDs with
  | [] => ([], p)
  | c :: rest =>
      let '(r, p1) := EVMAppOptions c p in
      let '(rs, p2) := callAll rest p1 in
      (r :: rs, p2)
  end.

(** Concurrent callers.  A goroutine inside [EVMAppOptions] takes two
    steps: the [Do] call, then the read of [evmInitErr] for [return]. *)
Inductive Goroutine : Type :=
| Calling (chainID : string)
| AfterDo
| Returned (result : option error).

Definition System : Type := Process * list Goroutine.

Definition stepGoroutine (i : nat) (sys : System) : System :=
  let '(p, ts) := sys in
  match ts !! i with
  | Some (Calling c) => (Once_Do (initClosure c) p, <[i := AfterDo]> ts)
  | Some AfterDo => (p, <[i := Returned (evmInitErr p)]> ts)
  | Some (Returned _) | None => sys
  end.

(** Run a schedule: the goroutine chosen at each instant. *)
Definition runSchedule (schedule : list nat) (sys : System) : System :=
  fold_left (fun s i => stepGoroutine i s) schedule sys.

Definition launch (chainIDs : list string) (g : Globals) : System :=
  (startProcess g, Calling <$> chainIDs).

End WithLib.
End app_config.

(** ** Part II: the ante pipeline ([app/ante] and [app]) *)

(** [codectypes.Any]: a tagged value. *)
Record codectypes_Any : Type := {
  TypeUrl : string;
  Value : string
}.

(** The two message types whose type URL the Cosmos chain asks for. *)
Inductive MsgType : Type :=
| MsgEthereumTx
| MsgCreateVestingAccount.

(** The external collaborators of the pipeline: keepers and services held by
    the Configuration Bundle, and the SDK's transaction and context types.
    A Go interface, pointer or func value that may be [nil] is an [option]
    of the collaborator's type wherever it is stored or passed on.
    [World] is everything a decorator can mutate through the references it
    holds or that the context carries: stores, the gas meter, observers. *)
Class Collaborators : Type := {
  AccountKeeperI : Type;
  BankKeeperI : Type;
  FeegrantKeeperI : Type;
  SignModeHandlerMap : Type;
  SignatureVerificationGasConsumer : Type;
  TxFeeCheckerF : Type;
  ExtensionOptionCheckerF : Type;
  BinaryCodec : Type;
  EvmKeeperT : Type;
  FeeMarketKeeperT : Type;
  PendingTxListenerF : Type;
  IBCKeeperT : Type;
  WasmKeeperT : Type;
  GasRegister : Type;
  KVStoreService : Type;
  CircuitKeeperT : Type;
  (* (k Keeper) GetGasRegister() *)
  Keeper_GetGasRegister : WasmKeeperT -> GasRegister;
  sdk_MsgTypeURL : MsgType -> string;
  sdk_Context : Type;
  sdk_Tx : Type;
  World : Type;
  (* tx.(authante.HasExtensionOptionsTx), then GetExtensionOptions():
     None when the transaction does not implement the interface *)
  HasExtensionOptionsTx : sdk_Tx -> option (list codectypes_Any)
}.

Module sdk.
Section WithCollaborators.
Context `{C : Collaborators}.

(** [(sdk.Context, error)], the pair every handler returns. *)
Definition Result : Type := sdk_Context * option error.

(** [sdk.AnteHandler]: a call may mutate the world and may panic. *)
Definition AnteHandler : Type :=
  sdk_Context -> sdk_Tx -> bool -> World -> Exec (Result * World).

(** The method [AnteHandle(ctx, tx, simulate, next)]. *)
Definition AnteHandleFn : Type :=
  sdk_Context -> sdk_Tx -> bool -> AnteHandler -> World -> Exec (Result * World).

(** The decorators of the two chains, each named by the library
    constructor that builds it and holding the arguments it is built
    from.  The one constructor the repository knows to panic is modelled
    with its panic, [wasmkeeper_NewLimitSimulationGasDecorator] below. *)
Inductive Decorator : Type :=
| NewRejectMessagesDecorator
| NewAuthzLimiterDecorator (disabledMsgTypes : list string)
| NewSetUpContextDecorator
| NewLimitSimulationGasDecorator (gasLimit : option N)
| NewCountTXDecorator (s : option KVStoreService)
| NewGasRegisterDecorator (gr : GasRegister)
| NewTxContractsDecorator
| NewCircuitBreakerDecorator (ck : option CircuitKeeperT)
| NewExtensionOptionsDecorator (checker : option ExtensionOptionCheckerF)
| NewValidateBasicDecorator
| NewTxTimeoutHeightDecorator
| NewValidateMemoDecorator (ak : option AccountKeeperI)
| NewMinGasPriceDecorator (fmk : FeeMarketKeeperT) (ek : option EvmKeeperT)
| NewConsumeGasForTxSizeDecorator (ak : option AccountKeeperI)
| NewDeductFeeDecorator (ak : option AccountKeeperI) (bk : option BankKeeperI)
    (fk : option FeegrantKeeperI) (tfc : option TxFeeCheckerF)
| NewSetPubKeyDecorator (ak : option AccountKeeperI)
| NewValidateSigCountDecorator (ak : option AccountKeeperI)
| NewSigGasConsumeDecorator (ak : option AccountKeeperI)
    (sgc : option SignatureVerificationGasConsumer)
| NewSigVerificationDecorator (ak : option AccountKeeperI)
    (smh : option SignModeHandlerMap)
| NewIncrementSequenceDecorator (ak : option AccountKeeperI)
| NewRedundantRelayDecorator (k : option IBCKeeperT)
| NewGasWantedDecorator (ek : option EvmKeeperT) (fmk : FeeMarketKeeperT)
| NewEVMMonoDecorator (ak : option AccountKeeperI) (fmk : FeeMarketKeeperT)
    (ek : option EvmKeeperT) (maxGasWanted : N)
| NewTxListenerDecorator (l : option PendingTxListenerF).

(** [wasmkeeper.NewLimitSimulationGasDecorator(gasLimit)]: panics when the
    limit is set and zero, as [registerWasmModules] records. *)
Definition wasmkeeper_NewLimitSimulationGasDecorator (gasLimit : option N)
  : Exec Decorator :=
  if decide (gasLimit = Some 0%N) then Panicked "gas limit must not be zero"
  else Done (NewLimitSimulationGasDecorator gasLimit).

(** What each library decorator does when its [AnteHandle] is called. *)
Class AnteSemantics : Type := {
  AnteHandle : Decorator -> AnteHandleFn
}.

Section Chain.
Context `{sem : AnteSemantics}.

(** The terminal handler the SDK puts after the last decorator. *)
Definition terminalHandler : AnteHandler :=
  fun ctx _ _ w => Done ((ctx, None), w).

(** A [nil] func value: calling it panics. *)
Definition nilHandler : AnteHandler :=
  fun _ _ _ _ => Panicked nilDereference.

(** [handlerChain[i]] of the SDK: decorator [i] with the rest of the
    chain as its [next]. *)
Fixpoint handlerChain (chain : list Decorator) : AnteHandler :=
  match chain with
  | [] => terminalHandler
  | d :: rest =>
      fun ctx tx simulate => AnteHandle d ctx tx simulate (handlerChain rest)
  end.

(** Modelled from the spec: [sdk.ChainAnteDecorators] is cosmos-sdk
    code, absent from src/.  Section 4.2: the ordered list becomes one
    callable by right-to-left continuation passing, each decorator
    receiving the rest of the chain as [next]; the SDK returns a nil
    handler for an empty list. *)
Definition ChainAnteDecorators (chain : list Decorator) : AnteHandler :=
  match chain with
  | [] => nilHandler
  | _ :: _ => handlerChain chain
  end.
End Chain.

(** *** Decorators that follow the pass/abort contract

    Section 4.2 of the specification asks of a decorator that it either
    aborts with its own error, not calling [next], or calls [next] once
    and returns what it returns.  Such a decorator is a step on context
    and world. *)
Inductive StepResult : Type :=
| Advance (ctx : sdk_Context)
| Abort (ctx : sdk_Context) (err : error).

Definition Step : Type :=
  sdk_Context -> sdk_Tx -> bool -> World -> Exec (StepResult * World).

Definition decoratorOfStep (step : Step) : AnteHandleFn :=
  fun ctx tx simulate next w =>
    match step ctx tx simulate w with
    | Panicked r => Panicked r
    | Done (Advance ctx', w') => next ctx' tx simulate w'
    | Done (Abort ctx' err, w') => Done ((ctx', Some err), w')
    end.

Definition StepSemantics (step : Decorator -> Step) : AnteSemantics :=
  {| AnteHandle d := decoratorOfStep (step d) |}.

(** What a decorator's step did in a run. *)
Inductive Verdict : Type :=
| Passed
| Rejected (err : error)
| Crashed.

(** An instrumented run of a chain of step decorators: the decorators
    whose step was executed, in order and each with its verdict, next to
    the outcome of the run. *)
Fixpoint runSteps (step : Decorator -> Step) (chain : list Decorator)
    (ctx : sdk_Context) (tx : sdk_Tx) (simulate : bool) (w : World)
  : list (Decorator * Verdict) * Exec (Result * World) :=
  match chain with
  | [] => ([], Done ((ctx, None), w))
  | d :: rest =>
      match step d ctx tx simulate w with
      | Panicked r => ([(d, Crashed)], Panicked r)
      | Done (Abort ctx' err, w') =>
          ([(d, Rejected err)], Done ((ctx', Some err), w'))
      | Done (Advance ctx', w') =>
          let '(executed, out) := runSteps step rest ctx' tx simulate w' in
          ((d, Passed) :: executed, out)
      end
  end.

(** The decorators of a semantics follow the pass/abort contract, with
    [step] as their steps. *)
Definition followsContract `{sem : AnteSemantics} (step : Decorator -> Step) : Prop :=
  forall d ctx tx simulate next w,
    AnteHandle d ctx tx simulate next w = decoratorOfStep (step d) ctx tx simulate next w.

(** [out] is the outcome of the run of [chain], and that run is fail-fast:
    an error comes from the first decorator that rejected, after which
    nothing was executed, and is handed back with the context and world that
    decorator returned from the state its predecessors had produced; a nil
    error means every decorator was executed, in order, and passed. *)
Definition failFast (step : Decorator -> Step) (chain : list Decorator)
    (ctx : sdk_Context) (tx : sdk_Tx) (simulate : bool) (w : World)
    (out : Exec (Result * World)) : Prop :=
  let run := runSteps step chain ctx tx simulate w in
  out = run.2 /\
  (forall ctx' err w',
     out = Done ((ctx', Some err), w') ->
     exists passed d notRun ctxk wk,
       chain = passed ++ d :: notRun /\
       run.1 = ((fun d => (d, Passed)) <$> passed) ++ [(d, Rejected err)] /\
       runSteps step passed ctx tx simulate w =
         ((fun d => (d, Passed)) <$> passed, Done ((ctxk, None), wk)) /\
       step d ctxk tx simulate wk = Done (Abort ctx' err, w')) /\
  (forall ctx' w',
     out = Done ((ctx', None), w') ->
     run.1 = (fun d => (d, Passed)) <$> chain).

End WithCollaborators.
End sdk.

(** [wasmTypes.NodeConfig], the one field the pipeline reads. *)
Record NodeConfig : Type := {
  SimulationGasLimit : option N
}.

(** *** Package [ante] (kudora/app/ante) *)
Module ante.
Import sdk.
Section WithCollaborators.
Context `{C : Collaborators}.

(** [HandlerOptions]: the Configuration Bundle.  [FeeMarketKeeper] is a
    struct value and [MaxTxGasWanted] a uint64: neither can be nil. *)
Record HandlerOptions : Type := {
  AccountKeeper : option AccountKeeperI;
  BankKeeper : option BankKeeperI;
  FeegrantKeeper : option FeegrantKeeperI;
  SignModeHandler : option SignModeHandlerMap;
  SignatureGasConsumer : option SignatureVerificationGasConsumer;
  TxFeeChecker : option TxFeeCheckerF;
  ExtensionOptionChecker : option ExtensionOptionCheckerF;
  Cdc : option BinaryCodec;
  EvmKeeper : option EvmKeeperT;
  FeeMarketKeeper : FeeMarketKeeperT;
  MaxTxGasWanted : N;
  PendingTxListener : option PendingTxListenerF;
  IBCKeeper : option IBCKeeperT;
  NodeConfig : option NodeConfig;
  WasmKeeper : option WasmKeeperT;
  TXCounterStoreService : option KVStoreService;
  CircuitKeeper : option CircuitKeeperT
}.

Definition wasmDecorators (options : HandlerOptions) : Exec (list Decorator) :=
  nodeConfig ← deref (NodeConfig options);
  limitSimulationGas ←
    wasmkeeper_NewLimitSimulationGasDecorator (SimulationGasLimit nodeConfig);
  wasmKeeper ← deref (WasmKeeper options);
  mret [ limitSimulationGas;
         NewCountTXDecorator (TXCounterStoreService options);
         NewGasRegisterDecorator (Keeper_GetGasRegister wasmKeeper);
         NewTxContractsDecorator ].

(** The slice [decorators] of [NewCosmosAnteHandler] as it stands when
    it is handed to [sdk.ChainAnteDecorators]. *)
Definition cosmosDecorators (options : HandlerOptions) : Exec (list Decorator) :=
  let decorators :=
    [ NewRejectMessagesDecorator;
      NewAuthzLimiterDecorator
        [ sdk_MsgTypeURL MsgEthereumTx;
          sdk_MsgTypeURL MsgCreateVestingAccount ];
      NewSetUpContextDecorator ] in
  wasm ← wasmDecorators options;
  let decorators := decorators ++ wasm in
  let decorators := decorators ++
    [ NewCircuitBreakerDecorator (CircuitKeeper options);
      NewExtensionOptionsDecorator (ExtensionOptionChecker options);
      NewValidateBasicDecorator;
      NewTxTimeoutHeightDecorator;
      NewValidateMemoDecorator (AccountKeeper options);
      NewMinGasPriceDecorator (FeeMarketKeeper options) (EvmKeeper options);
      NewConsumeGasForTxSizeDecorator (AccountKeeper options);
      NewDeductFeeDecorator (AccountKeeper options) (BankKeeper options)
        (FeegrantKeeper options) (TxFeeChecker options);
      NewSetPubKeyDecorator (AccountKeeper options);
      NewValidateSigCountDecorator (AccountKeeper options);
      NewSigGasConsumeDecorator (AccountKeeper options)
        (SignatureGasConsumer options);
      NewSigVerificationDecorator (AccountKeeper options)
        (SignModeHandler options);
      NewIncrementSequenceDecorator (AccountKeeper options);
      NewRedundantRelayDecorator (IBCKeeper options);
      NewGasWantedDecorator (EvmKeeper options) (FeeMarketKeeper options) ] in
  mret decorators.

(** The slice [decorators] of [NewMonoEVMAnteHandler]. *)
Definition evmDecorators (options : HandlerOptions) : list Decorator :=
  [ NewEVMMonoDecorator (AccountKeeper options) (FeeMarketKeeper options)
      (EvmKeeper options) (MaxTxGasWanted options);
    NewTxListenerDecorator (PendingTxListener options) ].

Context `{sem : !AnteSemantics}.

Definition NewCosmosAnteHandler (options : HandlerOptions) : Exec AnteHandler :=
  decorators ← cosmosDecorators options;
  mret (ChainAnteDecorators decorators).

Definition NewMonoEVMAnteHandler (options : HandlerOptions) : AnteHandler :=
  let decorators := evmDecorators options in
  ChainAnteDecorators decorators.

End WithCollaborators.
End ante.

(** *** Package [app]: the delegating constructor *)
Module app.
Import sdk.
Section WithCollaborators.
Context `{C : Collaborators} `{sem : !AnteSemantics}.

Definition HandlerOptions : Type := ante.HandlerOptions.

(** An observer of pending transactions, a [func(common.Hash)]: it returns
    no value; it can change the world and it can panic. *)
Definition Observer (Hash : Type) : Type := Hash -> World -> Exec World.

(** The func literal [setAnteHandler] stores in the bundle as
    [PendingTxListener], over the slice [app.pendingTxListeners]:
    [for _, listener := range app.pendingTxListeners { listener(hash) }].
    Nothing recovers a panic. *)
Fixpoint pendingTxListener {Hash : Type} (pendingTxListeners : list (Observer Hash))
    (hash : Hash) (w : World) : Exec World :=
  match pendingTxListeners with
  | [] => Done w
  | listener :: rest =>
      w' ← listener hash w;
      pendingTxListener rest hash w'
  end.

(** The closure [NewAnteHandler] returns, over its two captured
    variables. *)
Definition dispatch (cosmosAnteHandler evmAnteHandler : AnteHandler)
  : AnteHandler :=
  fun ctx tx simulate =>
    match HasExtensionOptionsTx tx with
    | Some (opt0 :: _) =>
        let typeURL := TypeUrl opt0 in
        if decide (typeURL = "/cosmos.evm.vm.v1.ExtensionOptionsEthereumTx")
        then evmAnteHandler ctx tx simulate
        else if decide (typeURL = "/cosmos.evm.types.v1.ExtensionOptionDynamicFeeTx")
        then cosmosAnteHandler ctx tx simulate
        else fun w =>
          Done ((ctx,
                 Some (errorsmod_Wrapf ErrUnknownExtensionOptions
                         "rejecting tx with unsupported extension option: %s"
                         [typeURL])), w)
    | Some [] | None => cosmosAnteHandler ctx tx simulate
    end.

(** Go's [(sdk.AnteHandler, error)]: [(None, Some err)] is [nil, err]. *)
Definition NewAnteHandler (options : HandlerOptions)
  : Exec (option AnteHandler * option error) :=
  if is_nil (ante.AccountKeeper options) then
    mret (None, Some (errors_New "account keeper is required for ante builder"))
  else if is_nil (ante.BankKeeper options) then
    mret (None, Some (errors_New "bank keeper is required for ante builder"))
  else if is_nil (ante.SignModeHandler options) then
    mret (None, Some (errors_New "sign mode handler is required for ante builder"))
  else if is_nil (ante.ExtensionOptionChecker options) then
    mret (None, Some (errors_New "extension option checker is required for ante builder"))
  else if is_nil (ante.TxFeeChecker options) then
    mret (None, Some (errors_New "tx fee checker is required for ante builder"))
  else if is_nil (ante.SignatureGasConsumer options) then
    mret (None, Some (errors_New "sig gas consumer is required for ante builder"))
  else if is_nil (ante.Cdc options) then
    mret (None, Some (errors_New "codec is required for ante builder"))
  else if is_nil (ante.EvmKeeper options) then
    mret (None, Some (errors_New "evm keeper is required for ante builder"))
  else if is_nil (ante.NodeConfig options) then
    mret (None, Some (errors_New "wasm config is required for ante builder"))
  else if is_nil (ante.TXCounterStoreService options) then
    mret (None, Some (errors_New "wasm store service is required for ante builder"))
  else if is_nil (ante.WasmKeeper options) then
    mret (None, Some (errors_New "wasm keeper is required for ante builder"))
  else if is_nil (ante.CircuitKeeper options) then
    mret (None, Some (errors_New "circuit keeper is required for ante builder"))
  else if is_nil (ante.IBCKeeper options) then
    mret (None, Some (errors_New "ibc keeper is required for ante builder"))
  else
    cosmosAnteHandler ← ante.NewCosmosAnteHandler options;
    let evmAnteHandler := ante.NewMonoEVMAnteHandler options in
    mret (Some (dispatch cosmosAnteHandler evmAnteHandler), None).

End WithCollaborators.
End app.

(** [authante.HandlerOptions] of the cosmos-sdk, embedded by the older
    [app.HandlerOptions]: the fields the repository sets or reads. *)
Module authante.
Section WithCollaborators.
Context `{C : Collaborators}.
Record HandlerOptions : Type := {
  AccountKeeper : option AccountKeeperI;
  BankKeeper : option BankKeeperI;
  ExtensionOptionChecker : option ExtensionOptionCheckerF;
  FeegrantKeeper : option FeegrantKeeperI;
  SignModeHandler : option SignModeHandlerMap;
  SigGasConsumer : option SignatureVerificationGasConsumer
}.
End WithCollaborators.
End authante.

(** *** Package [app]: the older constructor, with both chains inline *)
Module app_inline.
Import sdk.
Section WithCollaborators.
Context `{C : Collaborators}.

(** [HandlerOptions] embeds [authante.HandlerOptions]; its own
    [AccountKeeper] and [ExtensionOptionChecker] shadow the embedded
    fields of the same name. *)
Record HandlerOptions : Type := {
  embedded : authante.HandlerOptions;
  Cdc : option BinaryCodec;
  EvmKeeper : option EvmKeeperT;
  FeeMarketKeeper : FeeMarketKeeperT;
  MaxTxGasWanted : N;
  TxFeeChecker : option TxFeeCheckerF;
  PendingTxListener : option PendingTxListenerF;
  IBCKeeper : option IBCKeeperT;
  ExtensionOptionChecker : option ExtensionOptionCheckerF;
  AccountKeeper : option AccountKeeperI;
  NodeConfig : option NodeConfig;
  WasmKeeper : option WasmKeeperT;
  TXCounterStoreService : option KVStoreService;
  CircuitKeeper : option CircuitKeeperT
}.

(** Fields promoted from the embedded struct. *)
Definition BankKeeper (o : HandlerOptions) := authante.BankKeeper (embedded o).
Definition SignModeHandler (o : HandlerOptions) := authante.SignModeHandler (embedded o).
Definition SigGasConsumer (o : HandlerOptions) := authante.SigGasConsumer (embedded o).
Definition FeegrantKeeper (o : HandlerOptions) := authante.FeegrantKeeper (embedded o).

(** The slice [cosmosDecorators]. *)
Definition cosmosDecorators (options : HandlerOptions) : Exec (list Decorator) :=
  nodeConfig ← deref (NodeConfig options);
  limitSimulationGas ←
    wasmkeeper_NewLimitSimulationGasDecorator (SimulationGasLimit nodeConfig);
  wasmKeeper ← deref (WasmKeeper options);
  mret
    [ NewRejectMessagesDecorator;
      NewAuthzLimiterDecorator
        [ sdk_MsgTypeURL MsgEthereumTx;
          sdk_MsgTypeURL MsgCreateVestingAccount ];
      NewSetUpContextDecorator;
      limitSimulationGas;
      NewCountTXDecorator (TXCounterStoreService options);
      NewGasRegisterDecorator (Keeper_GetGasRegister wasmKeeper);
      NewTxContractsDecorator;
      NewCircuitBreakerDecorator (CircuitKeeper options);
      NewExtensionOptionsDecorator (ExtensionOptionChecker options);
      NewValidateBasicDecorator;
      NewTxTimeoutHeightDecorator;
      NewValidateMemoDecorator (AccountKeeper options);
      NewMinGasPriceDecorator (FeeMarketKeeper options) (EvmKeeper options);
      NewConsumeGasForTxSizeDecorator (AccountKeeper options);
      NewDeductFeeDecorator (AccountKeeper options) (BankKeeper options)
        (FeegrantKeeper options) (TxFeeChecker options);
      NewSetPubKeyDecorator (AccountKeeper options);
      NewValidateSigCountDecorator (AccountKeeper options);
      NewSigGasConsumeDecorator (AccountKeeper options) (SigGasConsumer options);
      NewSigVerificationDecorator (AccountKeeper options) (SignModeHandler options);
      NewIncrementSequenceDecorator (AccountKeeper options);
      NewRedundantRelayDecorator (IBCKeeper options);
      NewGasWantedDecorator (EvmKeeper options) (FeeMarketKeeper options) ].

(** The slice [evmDecorators]. *)
Definition evmDecorators (options : HandlerOptions) : list Decorator :=
  [ NewEVMMonoDecorator (AccountKeeper options) (FeeMarketKeeper options)
      (EvmKeeper options) (MaxTxGasWanted options);
    NewTxListenerDecorator (PendingTxListener options) ].

Context `{sem : !AnteSemantics}.

Definition NewAnteHandler (options : HandlerOptions)
  : Exec (option AnteHandler * option error) :=
  if is_nil (AccountKeeper options) then
    mret (None, Some (errors_New "account keeper is required for ante builder"))
  else if is_nil (BankKeeper options) then
    mret (None, Some (errors_New "bank keeper is required for ante builder"))
  else if is_nil (SignModeHandler options) then
    mret (None, Some (errors_New "sign mode handler is required for ante builder"))
  else if is_nil (ExtensionOptionChecker options) then
    mret (None, Some (errors_New "extension option checker is required for ante builder"))
  else if is_nil (TxFeeChecker options) then
    mret (None, Some (errors_New "tx fee checker is required for ante builder"))
  else if is_nil (SigGasConsumer options) then
    mret (None, Some (errors_New "sig gas consumer is required for ante builder"))
  else if is_nil (Cdc options) then
    mret (None, Some (errors_New "codec is required for ante builder"))
  else if is_nil (EvmKeeper options) then
    mret (None, Some (errors_New "evm keeper is required for ante builder"))
  else if is_nil (NodeConfig options) then
    mret (None, Some (errors_New "wasm config is required for ante builder"))
  else if is_nil (TXCounterStoreService options) then
    mret (None, Some (errors_New "wasm store service is required for ante builder"))
  else if is_nil (WasmKeeper options) then
    mret (None, Some (errors_New "wasm keeper is required for ante builder"))
  else if is_nil (CircuitKeeper options) then
    mret (None, Some (errors_New "circuit keeper is required for ante builder"))
  else if is_nil (IBCKeeper options) then
    mret (None, Some (errors_New "ibc keeper is required for ante builder"))
  else
    cosmosDecorators ← cosmosDecorators options;
    let cosmosAnteHandler := ChainAnteDecorators cosmosDecorators in
    let evmDecorators := evmDecorators options in
    let evmAnteHandler := ChainAnteDecorators evmDecorators in
    mret (Some (fun ctx tx simulate =>
      match HasExtensionOptionsTx tx with
      | Some (opt0 :: _) =>
          let typeURL := TypeUrl opt0 in
          if decide (typeURL = "/cosmos.evm.vm.v1.ExtensionOptionsEthereumTx")
          then evmAnteHandler ctx tx simulate
          else if decide (typeURL = "/cosmos.evm.types.v1.ExtensionOptionDynamicFeeTx")
          then cosmosAnteHandler ctx tx simulate
          else fun w =>
            Done ((ctx,
                   Some (errorsmod_Wrapf ErrUnknownExtensionOptions
                           "rejecting tx with unsupported extension option: %s"
                           [typeURL])), w)
      | Some [] | None => cosmosAnteHandler ctx tx simulate
      end), None).

(** The bundle of package [ante] that holds the same collaborators: each
    field is read the way Go resolves the selector on the older struct
    (its own field when it has one, the promoted field otherwise). *)
Definition asAnteOptions (o : HandlerOptions) : ante.HandlerOptions :=
  {| ante.AccountKeeper := AccountKeeper o;
     ante.BankKeeper := BankKeeper o;
     ante.FeegrantKeeper := FeegrantKeeper o;
     ante.SignModeHandler := SignModeHandler o;
     ante.SignatureGasConsumer := SigGasConsumer o;
     ante.TxFeeChecker := TxFeeChecker o;
     ante.ExtensionOptionChecker := ExtensionOptionChecker o;
     ante.Cdc := Cdc o;
     ante.EvmKeeper := EvmKeeper o;
     ante.FeeMarketKeeper := FeeMarketKeeper o;
     ante.MaxTxGasWanted := MaxTxGasWanted o;
     ante.PendingTxListener := PendingTxListener o;
     ante.IBCKeeper := IBCKeeper o;
     ante.NodeConfig := NodeConfig o;
     ante.WasmKeeper := WasmKeeper o;
     ante.TXCounterStoreService := TXCounterStoreService o;
     ante.CircuitKeeper := CircuitKeeper o |}.

End WithCollaborators.
End app_inline.

(** ** The specification's vocabulary *)

(** The decorator variants the specification names (section 3). *)
Inductive Variant : Type :=
| reject_unsupported_message
| authorization_scope_limiter
| context_setup
| wasm_gas_limiter
| tx_counting
| wasm_gas_register
| wasm_contract_address_limiter
| circuit_breaker
| extension_option_validator
| basic_well_formedness_validator
| timeout_height_validator
| memo_validator
| minimum_gas_price_validator
| size_based_gas_consumer
| fee_deductor
| public_key_setter
| signature_count_validator
| signature_gas_consumer
| signature_verifier
| sequence_incrementer
| redundant_relay_filter
| gas_wanted_validator
| EVM_mono_decorator
| pending_tx_notifier.

#[global] Instance Variant_eq_dec : EqDecision Variant.
Proof. solve_decision. Defined.

Section Vocabulary.
Context `{C : Collaborators}.
Import sdk.

(** Which variant a library decorator is. *)
Definition variantOf (d : Decorator) : Variant :=
  match d with
  | NewRejectMessagesDecorator => reject_unsupported_message
  | NewAuthzLimiterDecorator _ => authorization_scope_limiter
  | NewSetUpContextDecorator => context_setup
  | NewLimitSimulationGasDecorator _ => wasm_gas_limiter
  | NewCountTXDecorator _ => tx_counting
  | NewGasRegisterDecorator _ => wasm_gas_register
  | NewTxContractsDecorator => wasm_contract_address_limiter
  | NewCircuitBreakerDecorator _ => circuit_breaker
  | NewExtensionOptionsDecorator _ => extension_option_validator
  | NewValidateBasicDecorator => basic_well_formedness_validator
  | NewTxTimeoutHeightDecorator => timeout_height_validator
  | NewValidateMemoDecorator _ => memo_validator
  | NewMinGasPriceDecorator _ _ => minimum_gas_price_validator
  | NewConsumeGasForTxSizeDecorator _ => size_based_gas_consumer
  | NewDeductFeeDecorator _ _ _ _ => fee_deductor
  | NewSetPubKeyDecorator _ => public_key_setter
  | NewValidateSigCountDecorator _ => signature_count_validator
  | NewSigGasConsumeDecorator _ _ => signature_gas_consumer
  | NewSigVerificationDecorator _ _ => signature_verifier
  | NewIncrementSequenceDecorator _ => sequence_incrementer
  | NewRedundantRelayDecorator _ => redundant_relay_filter
  | NewGasWantedDecorator _ _ => gas_wanted_validator
  | NewEVMMonoDecorator _ _ _ _ => EVM_mono_decorator
  | NewTxListenerDecorator _ => pending_tx_notifier
  end.

(** The required ordering of the Cosmos chain, as the specification's
    table in section 4.3 lists it, first to last. *)
Definition specCosmosOrdering : list Variant :=
  [ reject_unsupported_message; authorization_scope_limiter;
    context_setup;
    wasm_gas_limiter; tx_counting; wasm_gas_register;
    wasm_contract_address_limiter;
    circuit_breaker;
    extension_option_validator; basic_well_formedness_validator;
    timeout_height_validator; memo_validator;
    minimum_gas_price_validator;
    size_based_gas_consumer;
    fee_deductor;
    public_key_setter; signature_count_validator; signature_gas_consumer;
    signature_verifier;
    sequence_incrementer;
    redundant_relay_filter;
    gas_wanted_validator ].


(** Position of the first decorator of a variant in a chain. *)
Fixpoint position (v : Variant) (chain : list Variant) : option nat :=
  match chain with
  | [] => None
  | x :: rest => if decide (x = v) then Some 0%nat else S <$> position v rest
  end.

(** [a] comes strictly before [b] in the chain. *)
Definition precedes (a b : Variant) (chain : list Variant) : Prop :=
  exists i j, position a chain = Some i /\ position b chain = Some j /\ (i < j)%nat.

(** The Configuration Bundle fields the specification lists as validated
    non-nil at construction (section 6), for those of them that have a nil
    value at all: true when one of them is nil. *)
Definition missingPerSpec (o : ante.HandlerOptions) : bool :=
  is_nil (ante.AccountKeeper o) || is_nil (ante.BankKeeper o)
  || is_nil (ante.FeegrantKeeper o) || is_nil (ante.SignModeHandler o)
  || is_nil (ante.SignatureGasConsumer o) || is_nil (ante.TxFeeChecker o)
  || is_nil (ante.ExtensionOptionChecker o) || is_nil (ante.Cdc o)
  || is_nil (ante.EvmKeeper o) || is_nil (ante.PendingTxListener o)
  || is_nil (ante.IBCKeeper o) || is_nil (ante.NodeConfig o)
  || is_nil (ante.WasmKeeper o) || is_nil (ante.TXCounterStoreService o)
  || is_nil (ante.CircuitKeeper o).

(** The fields [NewAnteHandler] tests, in the order it tests them, each
    with the text of the error it returns. *)
Definition checkedFields (o : ante.HandlerOptions) : list (bool * string) :=
  [ (is_nil (ante.AccountKeeper o), "account keeper is required for ante builder");
    (is_nil (ante.BankKeeper o), "bank keeper is required for ante builder");
    (is_nil (ante.SignModeHandler o), "sign mode handler is required for ante builder");
    (is_nil (ante.ExtensionOptionChecker o), "extension option checker is required for ante builder");
    (is_nil (ante.TxFeeChecker o), "tx fee checker is required for ante builder");
    (is_nil (ante.SignatureGasConsumer o), "sig gas consumer is required for ante builder");
    (is_nil (ante.Cdc o), "codec is required for ante builder");
    (is_nil (ante.EvmKeeper o), "evm keeper is required for ante builder");
    (is_nil (ante.NodeConfig o), "wasm config is required for ante builder");
    (is_nil (ante.TXCounterStoreService o), "wasm store service is required for ante builder");
    (is_nil (ante.WasmKeeper o), "wasm keeper is required for ante builder");
    (is_nil (ante.CircuitKeeper o), "circuit keeper is required for ante builder");
    (is_nil (ante.IBCKeeper o), "ibc keeper is required for ante builder") ].

(** The text paired with the first nil field of the list, if any. *)
Fixpoint firstMissing (checks : list (bool * string)) : option string :=
  match checks with
  | [] => None
  | (true, text) :: _ => Some text
  | (false, _) :: rest => firstMissing rest
  end.

(** The two identifiers of the wire contract (section 6). *)
Definition EthereumTxTypeURL : string :=
  "/cosmos.evm.vm.v1.ExtensionOptionsEthereumTx".
Definition DynamicFeeTxTypeURL : string :=
  "/cosmos.evm.types.v1.ExtensionOptionDynamicFeeTx".

Definition unknownExtensionError (typeURL : string) : error :=
  errorsmod_Wrapf ErrUnknownExtensionOptions
    "rejecting tx with unsupported extension option: %s" [typeURL].

(** An error is the "unknown chain id" error of [initEVM]. *)
Definition isUnknownChainID (e : error) : Prop :=
  exists id, e = fmt_Errorf "unknown chain id: %s (not found in ChainsCoinInfo)" [id].

End Vocabulary.

(** ** Test doubles

    Small concrete collaborators, in the manner of the mock keepers of a Go
    test: a one-account world with a gas counter, a balance, a sequence
    number and a count of observer notifications.  They serve to run the
    embedded functions on concrete inputs. *)
Module doubles.
Import sdk.

Record Ctx : Type := { gasLimit : N }.

Record Tx : Type := {
  extensionOptions : option (list codectypes_Any);
  txHash : N;
  txGas : N;
  txFee : N;
  signatureValid : bool;
  evmFundsSufficient : bool
}.

Record Ledger : Type := {
  gasConsumed : N;
  balance : N;
  sequence : N;
  notified : N
}.

Definition collaborators : Collaborators := {|
  AccountKeeperI := unit;
  BankKeeperI := unit;
  FeegrantKeeperI := unit;
  SignModeHandlerMap := unit;
  SignatureVerificationGasConsumer := unit;
  TxFeeCheckerF := unit;
  ExtensionOptionCheckerF := unit;
  BinaryCodec := unit;
  EvmKeeperT := unit;
  FeeMarketKeeperT := unit;
  PendingTxListenerF := N -> Ledger -> Exec Ledger;
  IBCKeeperT := unit;
  WasmKeeperT := unit;
  GasRegister := unit;
  KVStoreService := unit;
  CircuitKeeperT := unit;
  Keeper_GetGasRegister := fun _ => tt;
  sdk_MsgTypeURL := fun m =>
    match m with
    | MsgEthereumTx => "/cosmos.evm.vm.v1.MsgEthereumTx"
    | MsgCreateVestingAccount => "/cosmos.vesting.v1beta1.MsgCreateVestingAccount"
    end;
  sdk_Context := Ctx;
  sdk_Tx := Tx;
  World := Ledger;
  HasExtensionOptionsTx := extensionOptions
|}.
#[local] Existing Instance collaborators.

Definition ErrInsufficientFunds : error := lib_error "sdk" 5.
Definition ErrUnauthorized : error := lib_error "sdk" 4.

(** One step per decorator: context set-up installs the gas limit, fee
    deduction debits the balance, signature-gas consumption charges 1000
    gas, signature verification rejects an invalid signature unless
    simulating, sequence increment adds one, the EVM mono-decorator
    rejects insufficient funds, the notifier calls its listener with the
    hash of the transaction unless simulating, and does not recover a
    panic of it; every other decorator passes. *)
Definition step (d : Decorator) : Step :=
  fun ctx tx simulate w =>
    match d with
    | NewSetUpContextDecorator =>
        Done (Advance {| gasLimit := txGas tx |}, w)
    | NewDeductFeeDecorator _ _ _ _ =>
        if (balance w <? txFee tx)%N then Done (Abort ctx ErrInsufficientFunds, w)
        else Done (Advance ctx,
                   {| gasConsumed := gasConsumed w;
                      balance := balance w - txFee tx;
                      sequence := sequence w;
                      notified := notified w |})
    | NewSigGasConsumeDecorator _ _ =>
        Done (Advance ctx,
              {| gasConsumed := gasConsumed w + 1000;
                 balance := balance w;
                 sequence := sequence w;
                 notified := notified w |})
    | NewSigVerificationDecorator _ _ =>
        if signatureValid tx || simulate then Done (Advance ctx, w)
        else Done (Abort ctx ErrUnauthorized, w)
    | NewIncrementSequenceDecorator _ =>
        Done (Advance ctx,
              {| gasConsumed := gasConsumed w;
                 balance := balance w;
                 sequence := sequence w + 1;
                 notified := notified w |})
    | NewEVMMonoDecorator _ _ _ _ =>
        if evmFundsSufficient tx then Done (Advance ctx, w)
        else Done (Abort ctx ErrInsufficientFunds, w)
    | NewTxListenerDecorator (Some pendingTxListener) =>
        if simulate then Done (Advance ctx, w)
        else
          w' ← pendingTxListener (txHash tx) w;
          mret (Advance ctx, w')
    | _ => Done (Advance ctx, w)
    end.

Definition semantics : AnteSemantics := StepSemantics step.
#[local] Existing Instance semantics.

(** Two observers: one counts the notification, one panics. *)
Definition countingObserver : app.Observer N :=
  fun _ w =>
    Done {| gasConsumed := gasConsumed w;
            balance := balance w;
            sequence := sequence w;
            notified := notified w + 1 |}.


(** A fully populated bundle, and the same without a fee-grant store. *)
Definition fullOptions : ante.HandlerOptions :=
  {| ante.AccountKeeper := Some tt;
     ante.BankKeeper := Some tt;
     ante.FeegrantKeeper := Some tt;
     ante.SignModeHandler := Some tt;
     ante.SignatureGasConsumer := Some tt;
     ante.TxFeeChecker := Some tt;
     ante.ExtensionOptionChecker := Some tt;
     ante.Cdc := Some tt;
     ante.EvmKeeper := Some tt;
     ante.FeeMarketKeeper := tt;
     ante.MaxTxGasWanted := 0;
     ante.PendingTxListener := Some (app.pendingTxListener [countingObserver]);
     ante.IBCKeeper := Some tt;
     ante.NodeConfig := Some {| SimulationGasLimit := Some 5000000%N |};
     ante.WasmKeeper := Some tt;
     ante.TXCounterStoreService := Some tt;
     ante.CircuitKeeper := Some tt |}.

Definition noFeegrantOptions : ante.HandlerOptions :=
  {| ante.AccountKeeper := Some tt;
     ante.BankKeeper := Some tt;
     ante.FeegrantKeeper := None;
     ante.SignModeHandler := Some tt;
     ante.SignatureGasConsumer := Some tt;
     ante.TxFeeChecker := Some tt;
     ante.ExtensionOptionChecker := Some tt;
     ante.Cdc := Some tt;
     ante.EvmKeeper := Some tt;
     ante.FeeMarketKeeper := tt;
     ante.MaxTxGasWanted := 0;
     ante.PendingTxListener := Some (app.pendingTxListener [countingObserver]);
     ante.IBCKeeper := Some tt;
     ante.NodeConfig := Some {| SimulationGasLimit := Some 5000000%N |};
     ante.WasmKeeper := Some tt;
     ante.TXCounterStoreService := Some tt;
     ante.CircuitKeeper := Some tt |}.

Definition noIBCOptions : ante.HandlerOptions :=
  {| ante.AccountKeeper := Some tt;
     ante.BankKeeper := Some tt;
     ante.FeegrantKeeper := Some tt;
     ante.SignModeHandler := Some tt;
     ante.SignatureGasConsumer := Some tt;
     ante.TxFeeChecker := Some tt;
     ante.ExtensionOptionChecker := Some tt;
     ante.Cdc := Some tt;
     ante.EvmKeeper := Some tt;
     ante.FeeMarketKeeper := tt;
     ante.MaxTxGasWanted := 0;
     ante.PendingTxListener := Some (app.pendingTxListener [countingObserver]);
     ante.IBCKeeper := None;
     ante.NodeConfig := Some {| SimulationGasLimit := Some 5000000%N |};
     ante.WasmKeeper := Some tt;
     ante.TXCounterStoreService := Some tt;
     ante.CircuitKeeper := Some tt |}.


(** The full bundle with a simulation gas limit of zero. *)
Definition zeroLimitOptions : ante.HandlerOptions :=
  {| ante.AccountKeeper := Some tt;
     ante.BankKeeper := Some tt;
     ante.FeegrantKeeper := Some tt;
     ante.SignModeHandler := Some tt;
     ante.SignatureGasConsumer := Some tt;
     ante.TxFeeChecker := Some tt;
     ante.ExtensionOptionChecker := Some tt;
     ante.Cdc := Some tt;
     ante.EvmKeeper := Some tt;
     ante.FeeMarketKeeper := tt;
     ante.MaxTxGasWanted := 0;
     ante.PendingTxListener := Some (app.pendingTxListener [countingObserver]);
     ante.IBCKeeper := Some tt;
     ante.NodeConfig := Some {| SimulationGasLimit := Some 0%N |};
     ante.WasmKeeper := Some tt;
     ante.TXCounterStoreService := Some tt;
     ante.CircuitKeeper := Some tt |}.

Definition inlineOptions : app_inline.HandlerOptions :=
  {| app_inline.embedded :=
       {| authante.AccountKeeper := Some tt;
          authante.BankKeeper := Some tt;
          authante.ExtensionOptionChecker := Some tt;
          authante.FeegrantKeeper := Some tt;
          authante.SignModeHandler := Some tt;
          authante.SigGasConsumer := Some tt |};
     app_inline.Cdc := Some tt;
     app_inline.EvmKeeper := Some tt;
     app_inline.FeeMarketKeeper := tt;
     app_inline.MaxTxGasWanted := 0;
     app_inline.TxFeeChecker := Some tt;
     app_inline.PendingTxListener := Some (app.pendingTxListener [countingObserver]);
     app_inline.IBCKeeper := Some tt;
     app_inline.ExtensionOptionChecker := Some tt;
     app_inline.AccountKeeper := Some tt;
     app_inline.NodeConfig := Some {| SimulationGasLimit := Some 5000000%N |};
     app_inline.WasmKeeper := Some tt;
     app_inline.TXCounterStoreService := Some tt;
     app_inline.CircuitKeeper := Some tt |}.

(** Transactions. *)
Definition cosmosTx (sigOk : bool) : Tx :=
  {| extensionOptions := Some []; txHash := 1; txGas := 200000; txFee := 1000;
     signatureValid := sigOk; evmFundsSufficient := true |}.

Definition extTx (typeURL : string) (fundsOk : bool) : Tx :=
  {| extensionOptions := Some [ {| TypeUrl := typeURL; Value := "" |} ];
     txHash := 2; txGas := 21000; txFee := 0;
     signatureValid := true; evmFundsSufficient := fundsOk |}.

Definition bareTx : Tx :=
  {| extensionOptions := None; txHash := 3; txGas := 200000; txFee := 1000;
     signatureValid := true; evmFundsSufficient := true |}.

Definition ctx0 : Ctx := {| gasLimit := 0 |}.
Definition world0 : Ledger :=
  {| gasConsumed := 0; balance := 5000; sequence := 7; notified := 0 |}.

(** The handler built from the full bundle, or the nil handler had the
    construction failed. *)
Definition handler : AnteHandler :=
  match app.NewAnteHandler fullOptions with
  | Done (Some h, _) => h
  | _ => nilHandler
  end.

Definition bogusTx : Tx := extTx "/unknown.v1.Bogus" true.
Definition ethereumTx (fundsOk : bool) : Tx :=
  extTx "/cosmos.evm.vm.v1.ExtensionOptionsEthereumTx" fundsOk.



(** A double of the libraries [initEVM] calls: the registry of
    denominations and the configured EVM chain id. *)
Record Registry : Type := {
  denoms : list string;
  configured : option N
}.

Fixpoint parseDigits (s : string) (acc : N) : option N :=
  match s with
  | EmptyString => Some acc
  | String c rest =>
      let n := N_of_ascii c in
      if ((48 <=? n) && (n <=? 57))%N then parseDigits rest (acc * 10 + (n - 48))
      else None
  end.

Definition parseUint (s : string) : N + error :=
  match s with
  | EmptyString => inr (lib_error "strconv" 1)
  | _ =>
      match parseDigits s 0 with
      | Some n => if (n <? 2 ^ 64)%N then inl n else inr (lib_error "strconv" 2)
      | None => inr (lib_error "strconv" 1)
      end
  end.

Definition evmLib : EvmLib := {|
  Globals := Registry;
  sdk_RegisterDenom := fun denom _ g =>
    if decide (denom ∈ denoms g) then (Some (lib_error "sdk" 1), g)
    else (None, {| denoms := denoms g ++ [denom]; configured := configured g |});
  strings_TrimSpace := fun s => s;
  strconv_ParseUint := parseUint;
  ChainConfig := N;
  evmtypes_DefaultChainConfig := fun n => n;
  EVMConfigurator_Configure := fun cfg _ g =>
    match configured g with
    | Some _ => (Some (lib_error "evm" 1), g)
    | None => (None, {| denoms := denoms g; configured := Some cfg |})
    end
|}.

#[local] Existing Instance evmLib.

Definition registry0 : Registry := {| denoms := []; configured := None |}.

End doubles.

(** The prefix of [s] before the first occurrence of [sep]; all of [s] when
    [sep] does not occur. *)
Fixpoint prefixBefore (sep : ascii) (s : string) : string :=
  match s with
  | EmptyString => EmptyString
  | String c rest =>
      if Ascii.eqb c sep then EmptyString else String c (prefixBefore sep rest)
  end.

(** The invariant of a system of goroutines calling [EVMAppOptions]. *)
Section OnceInvariant.
Context `{L : EvmLib}.
Import app_config.

(** The process state left by the one run of [initEVM], on chain id [c]. *)
Definition initialisedBy (g : Globals) (c : string) (p : Process) : Prop :=
  evmInitOnce p = true /\ initRuns p = [c] /\
  evmInitErr p = (initEVM c g).1 /\ globals p = (initEVM c g).2.

Definition onceInvariant (chainIDs : list string) (g : Globals) (sys : System) : Prop :=
  let '(p, ts) := sys in
  length ts = length chainIDs /\
  (forall i c, ts !! i = Some (Calling c) -> chainIDs !! i = Some c) /\
  (evmInitOnce p = false -> p = startProcess g /\ ts = Calling <$> chainIDs) /\
  (evmInitOnce p = true ->
     exists c, c ∈ chainIDs /\ initialisedBy g c p /\
       forall i r, ts !! i = Some (Returned r) -> r = evmInitErr p).

(** How often goroutine [i] has been scheduled. *)
Definition scheduled (i : nat) (schedule : list nat) : nat :=
  count_occ Nat.eq_dec schedule i.

End OnceInvariant.

(** ** Further embedded code *)

(** [sep] occurs in [s]. *)
Fixpoint occurs (sep : ascii) (s : string) : bool :=
  match s with
  | EmptyString => false
  | String c rest => Ascii.eqb c sep || occurs sep rest
  end.

(** The suffix of [s] after the last occurrence of [sep]; all of [s] when
    [sep] does not occur. *)
Fixpoint afterLast (sep : ascii) (s : string) : string :=
  match s with
  | EmptyString => EmptyString
  | String c rest =>
      if occurs sep rest then afterLast sep rest
      else if Ascii.eqb c sep then rest
      else String c rest
  end.

(** [strings.Join(pieces, sep)] for a one-byte separator. *)
Fixpoint strings_Join (pieces : list string) (sep : ascii) : string :=
  match pieces with
  | [] => EmptyString
  | [piece] => piece
  | piece :: others => piece +:+ String sep (strings_Join others sep)
  end.

(** The package-level set-up of [init()] that concerns the token: the bond
    denomination and the power reduction [10^BaseDenomUnit]. *)
Module app_init.
Definition DefaultBondDenom : string := app_config.BaseDenom.
Definition DefaultPowerReduction : Z := 10 ^ app_config.BaseDenomUnit.
End app_init.

(** The chain ids whose lookup in [ChainsCoinInfo] succeeds in [initEVM]:
    the local development id, or any id whose prefix before the first ["-"]
    is the mainnet base id. *)
Definition acceptedChainID (cid : string) : Prop :=
  cid = "kudora_9000-1" \/ prefixBefore "-" cid = "kudora_12000".

(** *** Package [app]: wiring of the ante handler at start-up *)

(** What the start-up code takes from outside src/: the struct [App], read
    through its fields, and the library values it puts in the bundle. *)
Class AppLib `{C : Collaborators} : Type := {
  App : Type;
  App_AuthKeeper : App -> option AccountKeeperI;
  App_BankKeeper : App -> option BankKeeperI;
  App_FeeGrantKeeper : App -> option FeegrantKeeperI;
  App_appCodec : App -> option BinaryCodec;
  App_EVMKeeper : App -> option EvmKeeperT;
  App_FeeMarketKeeper : App -> FeeMarketKeeperT;
  App_IBCKeeper : App -> option IBCKeeperT;
  (* the fields whose address is taken: &app.WasmKeeper,
     &app.CircuitBreakerKeeper *)
  App_WasmKeeper : App -> WasmKeeperT;
  App_CircuitBreakerKeeper : App -> CircuitKeeperT;
  (* the func literal that ranges over app.pendingTxListeners *)
  App_pendingTxListener : App -> PendingTxListenerF;
  App_SetAnteHandler : sdk.AnteHandler -> App -> App;
  AppOptions : Type;
  (* cast.ToUint64(appOpts.Get(srvflags.EVMMaxTxGasWanted)) *)
  AppOptions_EVMMaxTxGasWanted : AppOptions -> N;
  TxConfig : Type;
  TxConfig_SignModeHandler : TxConfig -> option SignModeHandlerMap;
  KVStoreKey : Type;
  runtime_NewKVStoreService : option KVStoreKey -> KVStoreService;
  evmtypes_HasDynamicFeeExtensionOption : ExtensionOptionCheckerF;
  evmante_SigVerificationGasConsumer : SignatureVerificationGasConsumer;
  evmdecorators_NewDynamicFeeChecker : FeeMarketKeeperT -> TxFeeCheckerF;
  (* the method Error() *)
  error_Error : error -> string
}.

Module app_wiring.
Import sdk.
Section WithApp.
Context `{C : Collaborators} `{A : !AppLib} `{sem : !AnteSemantics}.

(** [registerWasmModules], the block that replaces an unset or zero
    [SimulationGasLimit] by five million. *)
Definition defaultSimulationGasLimit (wasmConfig : NodeConfig) : NodeConfig :=
  if is_nil (SimulationGasLimit wasmConfig)
     || bool_decide (SimulationGasLimit wasmConfig = Some 0%N)
  then
    let defaultSimGasLimit := 5000000%N in
    {| SimulationGasLimit := Some defaultSimGasLimit |}
  else wasmConfig.

(** The struct literal [setAnteHandler] passes to [NewAnteHandler]. *)
Definition anteHandlerOptions (app : App) (maxGasWanted : N) (txConfig : TxConfig)
    (wasmConfig : NodeConfig) (txCounterStoreKey : option KVStoreKey)
  : app_inline.HandlerOptions :=
  {| app_inline.embedded :=
       {| authante.AccountKeeper := App_AuthKeeper app;
          authante.BankKeeper := App_BankKeeper app;
          authante.SignModeHandler := TxConfig_SignModeHandler txConfig;
          authante.FeegrantKeeper := App_FeeGrantKeeper app;
          authante.ExtensionOptionChecker := Some evmtypes_HasDynamicFeeExtensionOption;
          authante.SigGasConsumer := Some evmante_SigVerificationGasConsumer |};
     app_inline.AccountKeeper := App_AuthKeeper app;
     app_inline.Cdc := App_appCodec app;
     app_inline.EvmKeeper := App_EVMKeeper app;
     app_inline.FeeMarketKeeper := App_FeeMarketKeeper app;
     app_inline.MaxTxGasWanted := maxGasWanted;
     app_inline.TxFeeChecker :=
       Some (evmdecorators_NewDynamicFeeChecker (App_FeeMarketKeeper app));
     app_inline.PendingTxListener := Some (App_pendingTxListener app);
     app_inline.ExtensionOptionChecker := Some evmtypes_HasDynamicFeeExtensionOption;
     app_inline.IBCKeeper := App_IBCKeeper app;
     app_inline.NodeConfig := Some wasmConfig;
     app_inline.WasmKeeper := Some (App_WasmKeeper app);
     app_inline.TXCounterStoreService :=
       Some (runtime_NewKVStoreService txCounterStoreKey);
     app_inline.CircuitKeeper := Some (App_CircuitBreakerKeeper app) |}.

(** [setAnteHandler]: the error it returns and the application it leaves. *)
Definition setAnteHandler (app : App) (appOpts : AppOptions) (txConfig : TxConfig)
    (wasmConfig : NodeConfig) (txCounterStoreKey : option KVStoreKey)
  : Exec (option error * App) :=
  let maxGasWanted := AppOptions_EVMMaxTxGasWanted appOpts in
  r ← app_inline.NewAnteHandler
        (anteHandlerOptions app maxGasWanted txConfig wasmConfig txCounterStoreKey);
  match r with
  | (_, Some err) =>
      mret (Some (fmt_Errorf "failed to create AnteHandler: %s" [error_Error err]),
            app)
  | (Some anteHandler, None) => mret (None, App_SetAnteHandler anteHandler app)
  | (None, None) => mret (None, App_SetAnteHandler nilHandler app)
  end.


End WithApp.
End app_wiring.


(** A double of the application for the start-up wiring: its keepers, and
    whether an ante handler has been installed. *)
Module doubles_app.
Import sdk.
#[local] Existing Instance doubles.collaborators.
#[local] Existing Instance doubles.semantics.

Record AppD : Type := {
  authKeeper : option unit;
  bankKeeper : option unit;
  appCodec : option unit;
  evmKeeper : option unit;
  ibcKeeper : option unit;
  installed : bool
}.

Definition appLib : AppLib := {|
  App := AppD;
  App_AuthKeeper := authKeeper;
  App_BankKeeper := bankKeeper;
  App_FeeGrantKeeper := fun _ => None;
  App_appCodec := appCodec;
  App_EVMKeeper := evmKeeper;
  App_FeeMarketKeeper := fun _ => tt;
  App_IBCKeeper := ibcKeeper;
  App_WasmKeeper := fun _ => tt;
  App_CircuitBreakerKeeper := fun _ => tt;
  App_pendingTxListener := fun _ => app.pendingTxListener [];
  App_SetAnteHandler := fun _ app =>
    {| authKeeper := authKeeper app; bankKeeper := bankKeeper app;
       appCodec := appCodec app; evmKeeper := evmKeeper app;
       ibcKeeper := ibcKeeper app; installed := true |};
  AppOptions := N;
  AppOptions_EVMMaxTxGasWanted := fun n => n;
  TxConfig := option unit;
  TxConfig_SignModeHandler := fun c => c;
  KVStoreKey := unit;
  runtime_NewKVStoreService := fun _ => tt;
  evmtypes_HasDynamicFeeExtensionOption := tt;
  evmante_SigVerificationGasConsumer := tt;
  evmdecorators_NewDynamicFeeChecker := fun _ => tt;
  error_Error := fun e =>
    match e with
    | errors_New text => text
    | _ => "error"
    end
|}.
#[local] Existing Instance appLib.

Definition readyApp : AppD :=
  {| authKeeper := Some tt; bankKeeper := Some tt; appCodec := Some tt;
     evmKeeper := Some tt; ibcKeeper := Some tt; installed := false |}.


(** A bundle that went through no validation: only the value fields set. *)
Definition bareOptions : ante.HandlerOptions :=
  {| ante.AccountKeeper := None;
     ante.BankKeeper := None;
     ante.FeegrantKeeper := None;
     ante.SignModeHandler := None;
     ante.SignatureGasConsumer := None;
     ante.TxFeeChecker := None;
     ante.ExtensionOptionChecker := None;
     ante.Cdc := None;
     ante.EvmKeeper := None;
     ante.FeeMarketKeeper := tt;
     ante.MaxTxGasWanted := 0;
     ante.PendingTxListener := None;
     ante.IBCKeeper := None;
     ante.NodeConfig := None;
     ante.WasmKeeper := None;
     ante.TXCounterStoreService := None;
     ante.CircuitKeeper := None |}.

Definition unsetConfig : NodeConfig := {| SimulationGasLimit := None |}.
Definition zeroConfig : NodeConfig := {| SimulationGasLimit := Some 0%N |}.

End doubles_app.

(** * Theorems *)

(** ** Part I: the one-time EVM set-up *)

Section InitEVMFacts.
Context `{L : EvmLib}.
Import app_config.

Lemma strings_Split_cons (s : string) (sep : ascii) :
  exists piece pieces, strings_Split s sep = piece :: pieces.
Proof.
  destruct s as [|c rest]; simpl; [by eauto|].
  destruct (Ascii.eqb c sep); [by eauto|].
  destruct (strings_Split rest sep); eauto.
Qed.

Lemma index0_Split_prefix (s : string) (sep : ascii) :
  index0 (strings_Split s sep) = prefixBefore sep s.
Proof.
  induction s as [|c rest IH]; simpl; [done|].
  destruct (Ascii.eqb c sep); [done|].
  destruct (strings_Split_cons rest sep) as (piece & pieces & E).
  rewrite E in IH |- *. simpl in *. by rewrite IH.
Qed.

Lemma ChainsCoinInfo_keys (k : string) :
  is_Some (ChainsCoinInfo !! k) <->
  k = "kudora_12000-1" \/ k = "kudora_12000" \/ k = "kudora_9000-1".
Proof.
  unfold ChainsCoinInfo, DefaultChainID.
  rewrite !lookup_insert_is_Some, lookup_empty, is_Some_alt.
  destruct (decide ("kudora_12000-1" = k)), (decide ("kudora_12000" = k)),
    (decide ("kudora_9000-1" = k)); intuition congruence.
Qed.

(** Every error [initEVM] returns after a successful lookup wraps another
    error, so it is not the unknown-chain-id error. *)
Lemma wrapped_not_unknown (format : string) (args : list string) (err : error) :
  ~ isUnknownChainID (fmt_Errorf_w format args err).
Proof. intros [id E]. discriminate E. Qed.

Lemma initEVM_found (cid : string) (g : Globals) (ci : evmtypes.EvmCoinInfo) :
  cid <> "" ->
  match ChainsCoinInfo !! index0 (strings_Split cid "-") with
  | Some coinInfo => Some coinInfo
  | None => ChainsCoinInfo !! cid
  end = Some ci ->
  forall e g', initEVM cid g = (Some e, g') -> ~ isUnknownChainID e.
Proof.
  intros Hne Hfound e g' Hinit. unfold initEVM in Hinit.
  destruct (decide (cid = "")) as [|_]; [done|].
  rewrite Hfound in Hinit.
  destruct (setBaseDenom ci g) as [[e1|] g1].
  { inversion Hinit; subst. apply wrapped_not_unknown. }
  destruct (parseEVMChainID cid) as [n|e2].
  2:{ inversion Hinit; subst. apply wrapped_not_unknown. }
  destruct (EVMConfigurator_Configure _ ci g1) as [[e3|] g3].
  - inversion Hinit; subst. apply wrapped_not_unknown.
  - discriminate Hinit.
Qed.

Lemma effective_nonempty (chainID : string) :
  (if decide (chainID = "") then DefaultChainID else chainID) <> "".
Proof. destruct (decide (chainID = "")); [discriminate|done]. Qed.

Lemma initEVM_effective (chainID : string) (g : Globals) :
  initEVM chainID g =
  initEVM (if decide (chainID = "") then DefaultChainID else chainID) g.
Proof. destruct (decide (chainID = "")) as [->|]; reflexivity. Qed.

(** C10.  [initEVM] replaces the empty chain id by ["kudora_12000-1"]
    before any lookup.  It returns the "unknown chain id" error exactly when
    neither the prefix of the chain id before the first ["-"] nor the full
    chain id is a key of [ChainsCoinInfo]; in that case the error names the
    chain id and the library state is returned untouched, whatever the
    libraries would have done: no denomination is registered and the EVM is
    not configured. *)
Theorem initEVM_unknown_chain_id (chainID : string) (g : Globals) :
  let cid := if decide (chainID = "") then DefaultChainID else chainID in
  let baseID := prefixBefore "-" cid in
  initEVM "" g = initEVM DefaultChainID g /\
  initEVM chainID g = initEVM cid g /\
  ((exists e g', initEVM chainID g = (Some e, g') /\ isUnknownChainID e) <->
   (ChainsCoinInfo !! baseID = None /\ ChainsCoinInfo !! cid = None)) /\
  (ChainsCoinInfo !! baseID = None -> ChainsCoinInfo !! cid = None ->
   initEVM chainID g =
   (Some (fmt_Errorf "unknown chain id: %s (not found in ChainsCoinInfo)" [cid]), g)).
Proof.
  intros cid baseID.
  assert (Hmiss : ChainsCoinInfo !! baseID = None -> ChainsCoinInfo !! cid = None ->
    initEVM chainID g =
    (Some (fmt_Errorf "unknown chain id: %s (not found in ChainsCoinInfo)" [cid]), g)).
  { intros Hb Hc. rewrite initEVM_effective. fold cid. unfold initEVM.
    destruct (decide (cid = "")) as [E|_]; [by destruct (effective_nonempty chainID)|].
    rewrite index0_Split_prefix. fold baseID. by rewrite Hb, Hc. }
  split; [reflexivity|]. split; [apply initEVM_effective|]. split; [|exact Hmiss].
  split.
  - intros (e & g' & Hinit & Hunk).
    rewrite initEVM_effective in Hinit. fold cid in Hinit.
    destruct (ChainsCoinInfo !! baseID) as [ci|] eqn:Hb.
    + exfalso. eapply (initEVM_found cid g ci); eauto using effective_nonempty.
      rewrite index0_Split_prefix. fold baseID. by rewrite Hb.
    + destruct (ChainsCoinInfo !! cid) as [ci|] eqn:Hc; [|done].
      exfalso. eapply (initEVM_found cid g ci); eauto using effective_nonempty.
      rewrite index0_Split_prefix. fold baseID. by rewrite Hb.
  - intros [Hb Hc]. eexists _, _. split; [by apply Hmiss|]. by eexists.
Qed.

End InitEVMFacts.

Section OnceFacts.
Context `{L : EvmLib}.
Import app_config.

Lemma Once_Do_done (f : Process -> Process) (p : Process) :
  evmInitOnce p = true -> Once_Do f p = p.
Proof. unfold Once_Do. by intros ->. Qed.

Lemma Once_Do_first (chainID : string) (g : Globals) :
  initialisedBy g chainID (Once_Do (initClosure chainID) (startProcess g)).
Proof.
  unfold Once_Do, initClosure, initialisedBy; simpl.
  by destruct (initEVM chainID g).
Qed.

Lemma launch_invariant (chainIDs : list string) (g : Globals) :
  onceInvariant chainIDs g (launch chainIDs g).
Proof.
  unfold onceInvariant, launch. split; [by rewrite length_fmap|].
  split.
  - intros i c Hi. rewrite list_lookup_fmap in Hi.
    destruct (chainIDs !! i); simpl in Hi; congruence.
  - split; [done|]. simpl. discriminate.
Qed.

Lemma step_invariant (chainIDs : list string) (g : Globals) (i : nat) (sys : System) :
  onceInvariant chainIDs g sys -> onceInvariant chainIDs g (stepGoroutine i sys).
Proof.
  destruct sys as [p ts]. intros (Hlen & Hcall & Hfresh & Hdone).
  unfold stepGoroutine.
  destruct (ts !! i) as [[c| |r]|] eqn:Hi;
    [| |exact (conj Hlen (conj Hcall (conj Hfresh Hdone)))..].
  - (* the goroutine enters Do *)
    assert (Hin : chainIDs !! i = Some c) by eauto.
    assert (Hlt : (i < length ts)%nat) by eauto using lookup_lt_Some.
    split; [by rewrite length_insert|]. split.
    { intros j c' Hj. destruct (decide (i = j)) as [->|Hne].
      - rewrite list_lookup_insert_eq in Hj by done. discriminate.
      - rewrite list_lookup_insert_ne in Hj by done. eauto. }
    destruct (evmInitOnce p) eqn:Hp.
    + rewrite Once_Do_done by done. rewrite Hp. split; [discriminate|].
      intros _. destruct (Hdone eq_refl) as (c0 & Hc0 & Hini & Hret).
      exists c0. split; [done|]. split; [done|].
      intros j r Hj. destruct (decide (i = j)) as [->|Hne].
      * rewrite list_lookup_insert_eq in Hj by done. discriminate.
      * rewrite list_lookup_insert_ne in Hj by done. eauto.
    + destruct (Hfresh eq_refl) as [-> ->].
      pose proof (Once_Do_first c g) as Hini.
      destruct Hini as (Ho & Hr & He & Hg). rewrite Ho.
      split; [discriminate|]. intros _. exists c.
      split; [by eapply list_elem_of_lookup_2|].
      split; [by repeat split|].
      intros j r Hj. destruct (decide (i = j)) as [->|Hne].
      * rewrite list_lookup_insert_eq in Hj by done. discriminate.
      * rewrite list_lookup_insert_ne, list_lookup_fmap in Hj by done.
        destruct (chainIDs !! j); discriminate.
  - (* the goroutine reads evmInitErr and returns *)
    assert (Hlt : (i < length ts)%nat) by eauto using lookup_lt_Some.
    assert (Hp : evmInitOnce p = true).
    { destruct (evmInitOnce p) eqn:Hp; [done|].
      destruct (Hfresh eq_refl) as [_ ->]. rewrite list_lookup_fmap in Hi.
      destruct (chainIDs !! i); discriminate. }
    split; [by rewrite length_insert|]. split.
    { intros j c' Hj. destruct (decide (i = j)) as [->|Hne].
      - rewrite list_lookup_insert_eq in Hj by done. discriminate.
      - rewrite list_lookup_insert_ne in Hj by done. eauto. }
    split; [by rewrite Hp|]. intros _.
    destruct (Hdone Hp) as (c0 & Hc0 & Hini & Hret).
    exists c0. split; [done|]. split; [done|].
    intros j r Hj. destruct (decide (i = j)) as [->|Hne].
    + rewrite list_lookup_insert_eq in Hj by done. congruence.
    + rewrite list_lookup_insert_ne in Hj by done. eauto.
Qed.

Lemma runSchedule_snoc (schedule : list nat) (i : nat) (sys : System) :
  runSchedule (schedule ++ [i]) sys = stepGoroutine i (runSchedule schedule sys).
Proof. unfold runSchedule. by rewrite fold_left_app. Qed.

Lemma runSchedule_invariant (chainIDs : list string) (g : Globals) (schedule : list nat) :
  onceInvariant chainIDs g (runSchedule schedule (launch chainIDs g)).
Proof.
  induction schedule as [|i schedule IH] using rev_ind.
  - apply launch_invariant.
  - rewrite runSchedule_snoc. by apply step_invariant.
Qed.

Lemma scheduled_snoc (i j : nat) (schedule : list nat) :
  scheduled i (schedule ++ [j]) =
  (scheduled i schedule + if decide (j = i) then 1 else 0)%nat.
Proof.
  unfold scheduled. rewrite count_occ_app. simpl.
  destruct (Nat.eq_dec j i), (decide (j = i)); done.
Qed.

(** The state of a goroutine is determined by how often it was scheduled. *)
Lemma progress_by_count (chainIDs : list string) (g : Globals) (schedule : list nat)
    (i : nat) (c : string) :
  chainIDs !! i = Some c ->
  let ts := (runSchedule schedule (launch chainIDs g)).2 in
  match scheduled i schedule with
  | 0%nat => ts !! i = Some (Calling c)
  | 1%nat => ts !! i = Some AfterDo
  | _ => exists r, ts !! i = Some (Returned r)
  end.
Proof.
  intros Hc. induction schedule as [|j schedule IH] using rev_ind; simpl.
  - by rewrite list_lookup_fmap, Hc.
  - rewrite runSchedule_snoc, scheduled_snoc.
    destruct (runSchedule schedule (launch chainIDs g)) as [p ts] eqn:Hrun.
    simpl in IH. unfold stepGoroutine.
    destruct (decide (j = i)) as [->|Hne].
    + destruct (scheduled i schedule) as [|[|n]]; simpl.
      * rewrite IH. simpl. apply list_lookup_insert_eq. eauto using lookup_lt_Some.
      * rewrite IH. simpl. eexists. apply list_lookup_insert_eq.
        eauto using lookup_lt_Some.
      * destruct IH as [r IH]. rewrite IH. simpl. eauto.
    + rewrite Nat.add_0_r.
      assert (Hsame : forall x, (<[j := x]> ts) !! i = ts !! i)
        by (intros; by apply list_lookup_insert_ne).
      destruct (ts !! j) as [[c'| |r']|]; simpl; rewrite ?Hsame; exact IH.
Qed.

Lemma callAll_done (chainIDs : list string) (p : Process) :
  evmInitOnce p = true ->
  callAll chainIDs p = (replicate (length chainIDs) (evmInitErr p), p).
Proof.
  intros Hp. induction chainIDs as [|c rest IH]; simpl; [done|].
  unfold EVMAppOptions. rewrite Once_Do_done by done. by rewrite IH.
Qed.

(** C8.  Any number of goroutines call [EVMAppOptions], each with its own
    chain id, and run interleaved under an arbitrary schedule.  At every
    instant [initEVM] has run at most once; once any goroutine has come out
    of [Do], it has run exactly once, on the chain id of one of the callers
    and from the initial library state, and every goroutine that has
    returned holds the outcome of that one run.  A goroutine scheduled
    twice has returned.  Called one after the other, the calls all return
    the outcome of the first call's run, which is the only one. *)
Theorem EVMAppOptions_exactly_once (chainIDs : list string) (g : Globals)
    (schedule : list nat) :
  let p := (runSchedule schedule (launch chainIDs g)).1 in
  let ts := (runSchedule schedule (launch chainIDs g)).2 in
  (length (initRuns p) <= 1)%nat /\
  (forall i, ts !! i = Some AfterDo \/ (exists r, ts !! i = Some (Returned r)) ->
     exists c, c ∈ chainIDs /\ initRuns p = [c] /\
       evmInitErr p = (initEVM c g).1 /\ globals p = (initEVM c g).2) /\
  (forall i r, ts !! i = Some (Returned r) -> r = evmInitErr p) /\
  (forall i, (i < length chainIDs)%nat -> (2 <= scheduled i schedule)%nat ->
     exists r, ts !! i = Some (Returned r)) /\
  (forall c rest,
     chainIDs = c :: rest ->
     exists p',
       callAll chainIDs (startProcess g) =
         (replicate (length chainIDs) (initEVM c g).1, p') /\
       initRuns p' = [c] /\ globals p' = (initEVM c g).2).
Proof.
  intros p ts.
  pose proof (runSchedule_invariant chainIDs g schedule) as Hinv.
  subst p ts. destruct (runSchedule schedule (launch chainIDs g)) as [p ts] eqn:Hrun.
  simpl. destruct Hinv as (Hlen & Hcall & Hfresh & Hdone).
  assert (Hpast : forall i, ts !! i = Some AfterDo \/ (exists r, ts !! i = Some (Returned r)) ->
                    evmInitOnce p = true).
  { intros i Hi. destruct (evmInitOnce p) eqn:Hp; [done|].
    destruct (Hfresh eq_refl) as [_ ->]. rewrite list_lookup_fmap in Hi.
    destruct (chainIDs !! i); simpl in Hi; destruct Hi as [?|[? ?]]; discriminate. }
  split; [|split; [|split; [|split]]].
  - destruct (evmInitOnce p) eqn:Hp.
    + destruct (Hdone eq_refl) as (c & _ & (_ & -> & _) & _). simpl. lia.
    + destruct (Hfresh eq_refl) as [-> _]. simpl. lia.
  - intros i Hi. destruct (Hdone (Hpast i Hi)) as (c & Hc & (_ & Hr & He & Hg) & _).
    by exists c.
  - intros i r Hi. destruct (Hdone (Hpast i (or_intror (ex_intro _ r Hi)))) as (c & _ & _ & Hret).
    eauto.
  - intros i Hi Hn. destruct (lookup_lt_is_Some_2 chainIDs i Hi) as [c Hc].
    pose proof (progress_by_count chainIDs g schedule i c Hc) as Hprog.
    rewrite Hrun in Hprog. simpl in Hprog.
    destruct (scheduled i schedule) as [|[|n]]; [lia|lia|exact Hprog].
  - intros c rest ->.
    pose proof (Once_Do_first c g) as (Ho & Hr & He & Hg).
    exists (Once_Do (initClosure c) (startProcess g)).
    split; [|done].
    cbn [callAll]. unfold EVMAppOptions.
    rewrite (callAll_done rest _ Ho), He. reflexivity.
Qed.

End OnceFacts.

(** ** Part II: construction and dispatch *)

Section Construction.
Context `{C : Collaborators} `{sem : !sdk.AnteSemantics}.
Import sdk.

Lemma is_nil_false {A : Type} (p : option A) :
  is_nil p = false -> exists a, p = Some a.
Proof. destruct p; [by eauto|discriminate]. Qed.

(** Case analysis on the next nil test of a constructor. *)
Ltac next_check :=
  match goal with
  | |- context [is_nil ?x] => destruct (is_nil x) eqn:?; [reflexivity|]
  end.

(** [NewAnteHandler] returns the error of the first nil field among those it
    tests, and builds the dispatcher over the two chains when none is. *)
Lemma NewAnteHandler_unfold (options : ante.HandlerOptions) :
  app.NewAnteHandler options =
  match firstMissing (checkedFields options) with
  | Some text => Done (None, Some (errors_New text))
  | None =>
      cosmosAnteHandler ← ante.NewCosmosAnteHandler options;
      mret (Some (app.dispatch cosmosAnteHandler (ante.NewMonoEVMAnteHandler options)),
            None)
  end.
Proof.
  unfold app.NewAnteHandler, checkedFields. cbn [firstMissing].
  repeat next_check. reflexivity.
Qed.

Lemma NewLimitSimulationGasDecorator_nonzero (gasLimit : option N) :
  gasLimit <> Some 0%N ->
  wasmkeeper_NewLimitSimulationGasDecorator gasLimit =
    Done (NewLimitSimulationGasDecorator gasLimit).
Proof.
  intros Hlimit. unfold wasmkeeper_NewLimitSimulationGasDecorator.
  by destruct (decide (gasLimit = Some 0%N)).
Qed.

Lemma NewLimitSimulationGasDecorator_zero :
  wasmkeeper_NewLimitSimulationGasDecorator (Some 0%N) =
    Panicked "gas limit must not be zero".
Proof. reflexivity. Qed.

Lemma cosmosDecorators_total (options : ante.HandlerOptions) (nc : NodeConfig)
    (wk : WasmKeeperT) :
  ante.NodeConfig options = Some nc -> ante.WasmKeeper options = Some wk ->
  SimulationGasLimit nc <> Some 0%N ->
  exists ds, ante.cosmosDecorators options = Done ds /\ ds <> [].
Proof.
  intros Hnc Hwk Hlimit. unfold ante.cosmosDecorators, ante.wasmDecorators.
  rewrite Hnc, Hwk. simpl.
  rewrite (NewLimitSimulationGasDecorator_nonzero _ Hlimit).
  simpl. eexists. split; [reflexivity|discriminate].
Qed.

(** A zero simulation gas limit makes the construction of the slice panic,
    before the WASM keeper is looked at. *)
Lemma cosmosDecorators_zero_limit (options : ante.HandlerOptions) (nc : NodeConfig) :
  ante.NodeConfig options = Some nc -> SimulationGasLimit nc = Some 0%N ->
  ante.wasmDecorators options = Panicked "gas limit must not be zero" /\
  ante.cosmosDecorators options = Panicked "gas limit must not be zero".
Proof.
  intros Hnc Hlimit. unfold ante.cosmosDecorators, ante.wasmDecorators.
  rewrite Hnc. simpl. rewrite Hlimit, NewLimitSimulationGasDecorator_zero. done.
Qed.

(** A slice that was built holds the given limit, which is not zero. *)
Lemma cosmosDecorators_Done (options : ante.HandlerOptions) (ds : list Decorator) :
  ante.cosmosDecorators options = Done ds ->
  exists nc wk,
    ante.NodeConfig options = Some nc /\ ante.WasmKeeper options = Some wk /\
    SimulationGasLimit nc <> Some 0%N.
Proof.
  unfold ante.cosmosDecorators, ante.wasmDecorators.
  destruct (ante.NodeConfig options) as [nc|]; [|done]. simpl.
  destruct (decide (SimulationGasLimit nc = Some 0%N)) as [Hz|Hnz].
  { by rewrite Hz, NewLimitSimulationGasDecorator_zero. }
  destruct (ante.WasmKeeper options) as [wk|]; [by eauto|].
  by rewrite (NewLimitSimulationGasDecorator_nonzero _ Hnz).
Qed.

Lemma ChainAnteDecorators_nonempty (ds : list Decorator) :
  ds <> [] -> ChainAnteDecorators ds = handlerChain ds.
Proof. by destruct ds. Qed.

Lemma firstMissing_None (checks : list (bool * string)) :
  firstMissing checks = None <-> forall b t, (b, t) ∈ checks -> b = false.
Proof.
  induction checks as [|[[] t] rest IH]; simpl.
  - split; [|done]. intros _ b t Hin. by apply elem_of_nil in Hin.
  - split; [discriminate|]. intros Hall.
    assert (true = false) by (apply (Hall true t); left). discriminate.
  - rewrite IH. split.
    + intros Hall b t' Hin. apply elem_of_cons in Hin as [[= -> ->]|Hin]; eauto.
    + intros Hall b t' Hin. apply (Hall b t'). by right.
Qed.

Lemma firstMissing_Some (checks : list (bool * string)) (text : string) :
  firstMissing checks = Some text -> (true, text) ∈ checks.
Proof.
  induction checks as [|[[] t] rest IH]; simpl; [discriminate| |].
  - intros [= ->]. left.
  - intros Hm. right. auto.
Qed.

Lemma checked_NodeConfig (options : ante.HandlerOptions) :
  firstMissing (checkedFields options) = None ->
  exists nc wk, ante.NodeConfig options = Some nc /\ ante.WasmKeeper options = Some wk.
Proof.
  intros Hnone. rewrite firstMissing_None in Hnone.
  destruct (is_nil_false (ante.NodeConfig options)) as [nc Hnc].
  { apply (Hnone _ "wasm config is required for ante builder").
    unfold checkedFields. set_solver. }
  destruct (is_nil_false (ante.WasmKeeper options)) as [wk Hwk].
  { apply (Hnone _ "wasm keeper is required for ante builder").
    unfold checkedFields. set_solver. }
  by eauto.
Qed.

(** When no tested field is nil and the simulation gas limit is not zero,
    the construction succeeds, with the dispatcher over the two composed
    chains. *)
Lemma NewAnteHandler_success (options : ante.HandlerOptions) (nc : NodeConfig) :
  firstMissing (checkedFields options) = None ->
  ante.NodeConfig options = Some nc ->
  SimulationGasLimit nc <> Some 0%N ->
  exists ds,
    ante.cosmosDecorators options = Done ds /\ ds <> [] /\
    app.NewAnteHandler options =
      Done (Some (app.dispatch (handlerChain ds)
                    (handlerChain (ante.evmDecorators options))), None).
Proof.
  intros Hnone Hnc Hlimit. rewrite NewAnteHandler_unfold, Hnone.
  destruct (checked_NodeConfig options Hnone) as (nc' & wk & Hnc' & Hwk).
  destruct (cosmosDecorators_total options nc wk Hnc Hwk Hlimit) as (ds & Hds & Hne).
  exists ds. split; [done|]. split; [done|].
  unfold ante.NewCosmosAnteHandler, ante.NewMonoEVMAnteHandler.
  rewrite Hds. simpl. by rewrite (ChainAnteDecorators_nonempty ds Hne).
Qed.

(** When no tested field is nil and the simulation gas limit is zero, the
    construction panics. *)
Lemma NewAnteHandler_zero_limit (options : ante.HandlerOptions) (nc : NodeConfig) :
  firstMissing (checkedFields options) = None ->
  ante.NodeConfig options = Some nc ->
  SimulationGasLimit nc = Some 0%N ->
  app.NewAnteHandler options = Panicked "gas limit must not be zero".
Proof.
  intros Hnone Hnc Hlimit. rewrite NewAnteHandler_unfold, Hnone.
  unfold ante.NewCosmosAnteHandler.
  by rewrite (proj2 (cosmosDecorators_zero_limit options nc Hnc Hlimit)).
Qed.

(** A handler is returned only when no tested field is nil. *)
Lemma NewAnteHandler_handler (options : ante.HandlerOptions) (h : AnteHandler)
    (e : option error) :
  app.NewAnteHandler options = Done (Some h, e) ->
  firstMissing (checkedFields options) = None.
Proof.
  rewrite NewAnteHandler_unfold.
  destruct (firstMissing (checkedFields options)); [discriminate|done].
Qed.

(** A handler that was returned is the dispatcher over the two composed
    chains. *)
Lemma NewAnteHandler_built (options : ante.HandlerOptions) (h : AnteHandler)
    (e : option error) :
  app.NewAnteHandler options = Done (Some h, e) ->
  exists ds,
    ante.cosmosDecorators options = Done ds /\ ds <> [] /\
    app.NewAnteHandler options =
      Done (Some (app.dispatch (handlerChain ds)
                    (handlerChain (ante.evmDecorators options))), None).
Proof.
  intros Hnew. pose proof (NewAnteHandler_handler _ _ _ Hnew) as Hnone.
  destruct (checked_NodeConfig options Hnone) as (nc & wk & Hnc & Hwk).
  destruct (decide (SimulationGasLimit nc = Some 0%N)) as [Hz|Hnz].
  - rewrite (NewAnteHandler_zero_limit options nc Hnone Hnc Hz) in Hnew. discriminate.
  - by apply (NewAnteHandler_success options nc).
Qed.

(** The routing of the dispatcher closure, for arbitrary captured handlers. *)
Lemma dispatch_no_extension (cosmos evm : AnteHandler) (ctx : sdk_Context)
    (tx : sdk_Tx) (simulate : bool) :
  HasExtensionOptionsTx tx = None \/ HasExtensionOptionsTx tx = Some [] ->
  app.dispatch cosmos evm ctx tx simulate = cosmos ctx tx simulate.
Proof. unfold app.dispatch. by intros [-> | ->]. Qed.

Lemma dispatch_first (cosmos evm : AnteHandler) (ctx : sdk_Context)
    (tx : sdk_Tx) (simulate : bool) (opt0 : codectypes_Any)
    (others : list codectypes_Any) :
  HasExtensionOptionsTx tx = Some (opt0 :: others) ->
  app.dispatch cosmos evm ctx tx simulate =
  if decide (TypeUrl opt0 = EthereumTxTypeURL) then evm ctx tx simulate
  else if decide (TypeUrl opt0 = DynamicFeeTxTypeURL) then cosmos ctx tx simulate
  else fun w => Done ((ctx, Some (unknownExtensionError (TypeUrl opt0))), w).
Proof. unfold app.dispatch. by intros ->. Qed.

End Construction.

Section DispatchClaims.
Context `{C : Collaborators} `{sem : !sdk.AnteSemantics}.
Import sdk.

(** C1.  The handler [NewAnteHandler] returns is the dispatcher closure over
    the composed Cosmos chain and the composed EVM chain, and for every
    transaction:
    - with no extension options (none exposed, or an empty list), the call
      is the Cosmos chain's call, whatever handler stands in the EVM slot:
      the EVM chain is not run;
    - with first type URL ["/cosmos.evm.vm.v1.ExtensionOptionsEthereumTx"],
      the call is the EVM chain's call, whatever handler stands in the
      Cosmos slot: the Cosmos chain is not run;
    - with first type URL
      ["/cosmos.evm.types.v1.ExtensionOptionDynamicFeeTx"], the call is the
      Cosmos chain's call;
    - with any other first type URL, neither handler is consulted and the
      UnknownExtensionOptions error is returned. *)
Theorem NewAnteHandler_dispatch (options : ante.HandlerOptions) (h : AnteHandler) :
  app.NewAnteHandler options = Done (Some h, None) ->
  exists cosmosDs,
    ante.cosmosDecorators options = Done cosmosDs /\
    let cosmosChain := handlerChain cosmosDs in
    let evmChain := handlerChain (ante.evmDecorators options) in
    h = app.dispatch cosmosChain evmChain /\
    forall (ctx : sdk_Context) (tx : sdk_Tx) (simulate : bool),
      (HasExtensionOptionsTx tx = None \/ HasExtensionOptionsTx tx = Some [] ->
       forall other : AnteHandler,
         h ctx tx simulate = cosmosChain ctx tx simulate /\
         app.dispatch cosmosChain other ctx tx simulate = h ctx tx simulate) /\
      (forall opt0 others,
         HasExtensionOptionsTx tx = Some (opt0 :: others) ->
         (TypeUrl opt0 = "/cosmos.evm.vm.v1.ExtensionOptionsEthereumTx" ->
          forall other : AnteHandler,
            h ctx tx simulate = evmChain ctx tx simulate /\
            app.dispatch other evmChain ctx tx simulate = h ctx tx simulate) /\
         (TypeUrl opt0 = "/cosmos.evm.types.v1.ExtensionOptionDynamicFeeTx" ->
          forall other : AnteHandler,
            h ctx tx simulate = cosmosChain ctx tx simulate /\
            app.dispatch cosmosChain other ctx tx simulate = h ctx tx simulate) /\
         (TypeUrl opt0 <> "/cosmos.evm.vm.v1.ExtensionOptionsEthereumTx" ->
          TypeUrl opt0 <> "/cosmos.evm.types.v1.ExtensionOptionDynamicFeeTx" ->
          forall (other1 other2 : AnteHandler) (w : World),
            h ctx tx simulate w =
              Done ((ctx, Some (unknownExtensionError (TypeUrl opt0))), w) /\
            app.dispatch other1 other2 ctx tx simulate w = h ctx tx simulate w)).
Proof.
  intros Hnew.
  destruct (NewAnteHandler_built options _ _ Hnew)
    as (ds & Hds & _ & Hok).
  rewrite Hok in Hnew. injection Hnew as <-.
  exists ds. split; [done|]. cbn zeta. split; [done|].
  intros ctx tx simulate. split.
  - intros Hext other. by rewrite !dispatch_no_extension.
  - intros opt0 others Hext. repeat split.
    + rewrite (dispatch_first _ _ _ _ _ _ _ Hext).
      unfold EthereumTxTypeURL. by destruct (decide _).
    + rewrite !(dispatch_first _ _ _ _ _ _ _ Hext).
      unfold EthereumTxTypeURL. by destruct (decide _).
    + rewrite (dispatch_first _ _ _ _ _ _ _ Hext).
      unfold EthereumTxTypeURL, DynamicFeeTxTypeURL.
      destruct (decide _) as [E|_]; [by rewrite E in *|]. by destruct (decide _).
    + rewrite !(dispatch_first _ _ _ _ _ _ _ Hext).
      unfold EthereumTxTypeURL, DynamicFeeTxTypeURL.
      destruct (decide _) as [E|_]; [by rewrite E in *|]. by destruct (decide _).
    + rewrite (dispatch_first _ _ _ _ _ _ _ Hext).
      unfold EthereumTxTypeURL, DynamicFeeTxTypeURL.
      destruct (decide _); [done|]. by destruct (decide _).
    + rewrite !(dispatch_first _ _ _ _ _ _ _ Hext).
      unfold EthereumTxTypeURL, DynamicFeeTxTypeURL.
      destruct (decide _); [done|]. by destruct (decide _).
Qed.

(** C2.  For a transaction whose first extension option has a type URL
    that is neither of the two known identifiers, the handler returns the
    input context unchanged together with [ErrUnknownExtensionOptions]
    wrapped with a message that carries the offending type URL; the world
    is returned as it was found (no gas consumed, nothing written), and the
    result is the same whatever the two chains are: neither is invoked. *)
Theorem unknown_extension_rejected (options : ante.HandlerOptions) (h : AnteHandler)
    (ctx : sdk_Context) (tx : sdk_Tx) (simulate : bool) (w : World)
    (opt0 : codectypes_Any) (others : list codectypes_Any) :
  app.NewAnteHandler options = Done (Some h, None) ->
  HasExtensionOptionsTx tx = Some (opt0 :: others) ->
  TypeUrl opt0 <> "/cosmos.evm.vm.v1.ExtensionOptionsEthereumTx" ->
  TypeUrl opt0 <> "/cosmos.evm.types.v1.ExtensionOptionDynamicFeeTx" ->
  h ctx tx simulate w =
    Done ((ctx,
           Some (errorsmod_Wrapf ErrUnknownExtensionOptions
                   "rejecting tx with unsupported extension option: %s"
                   [TypeUrl opt0])), w) /\
  forall cosmos evm : AnteHandler,
    app.dispatch cosmos evm ctx tx simulate w = h ctx tx simulate w.
Proof.
  intros Hnew Hext Hne1 Hne2.
  destruct (NewAnteHandler_built options _ _ Hnew)
    as (ds & Hds & _ & Hok).
  rewrite Hok in Hnew. injection Hnew as <-.
  assert (Hany : forall cosmos evm : AnteHandler,
    app.dispatch cosmos evm ctx tx simulate w =
    Done ((ctx, Some (unknownExtensionError (TypeUrl opt0))), w)).
  { intros cosmos evm. rewrite (dispatch_first _ _ _ _ _ _ _ Hext).
    unfold EthereumTxTypeURL, DynamicFeeTxTypeURL.
    destruct (decide _); [done|]. by destruct (decide _). }
  split; [apply Hany|]. intros cosmos evm. by rewrite !Hany.
Qed.

(** C3, as amended.  [NewAnteHandler] returns an error exactly when one of
    the thirteen fields it tests is nil (account keeper, bank keeper,
    sign-mode handler, extension-option checker, fee checker, signature-gas
    consumer, codec, EVM keeper, WASM node config, tx-counter store service,
    WASM keeper, circuit keeper, IBC keeper): it then returns no handler and
    the error named after the first nil field in that order.  When none of
    them is nil it returns a handler and no error, whether or not the
    fee-grant store or the pending-tx listener is nil, provided the
    simulation gas limit of the WASM node config is not set to zero; with a
    zero limit it panics with the message of the WASM gas-limit decorator's
    constructor, and that is its only panic.  The fee-market keeper and
    max-gas-wanted have no nil value. *)
Theorem NewAnteHandler_validation (options : ante.HandlerOptions) :
  (forall text,
     firstMissing (checkedFields options) = Some text ->
     (true, text) ∈ checkedFields options /\
     app.NewAnteHandler options = Done (None, Some (errors_New text))) /\
  (firstMissing (checkedFields options) = None ->
   exists nc,
     ante.NodeConfig options = Some nc /\
     (SimulationGasLimit nc <> Some 0%N ->
      exists h, app.NewAnteHandler options = Done (Some h, None)) /\
     (SimulationGasLimit nc = Some 0%N ->
      app.NewAnteHandler options = Panicked "gas limit must not be zero")) /\
  ((exists text, (true, text) ∈ checkedFields options) <->
   (exists text, app.NewAnteHandler options = Done (None, Some (errors_New text)))) /\
  ((exists reason, app.NewAnteHandler options = Panicked reason) <->
   (firstMissing (checkedFields options) = None /\
    exists nc, ante.NodeConfig options = Some nc /\ SimulationGasLimit nc = Some 0%N)).
Proof.
  assert (Hcases : firstMissing (checkedFields options) = None ->
    exists nc,
      ante.NodeConfig options = Some nc /\
      (SimulationGasLimit nc <> Some 0%N ->
       exists h, app.NewAnteHandler options = Done (Some h, None)) /\
      (SimulationGasLimit nc = Some 0%N ->
       app.NewAnteHandler options = Panicked "gas limit must not be zero")).
  { intros Hnone. destruct (checked_NodeConfig options Hnone) as (nc & wk & Hnc & _).
    exists nc. split; [done|]. split.
    - intros Hlimit.
      destruct (NewAnteHandler_success options nc Hnone Hnc Hlimit) as (ds & _ & _ & Hok).
      eauto.
    - intros Hlimit. by apply (NewAnteHandler_zero_limit options nc). }
  split; [|split; [|split]].
  - intros text Hm. split; [by apply firstMissing_Some|].
    by rewrite NewAnteHandler_unfold, Hm.
  - exact Hcases.
  - split.
    + intros [text Hin]. destruct (firstMissing (checkedFields options)) as [t|] eqn:Hm.
      * exists t. by rewrite NewAnteHandler_unfold, Hm.
      * rewrite firstMissing_None in Hm. by specialize (Hm _ _ Hin).
    + intros [text Hres]. destruct (firstMissing (checkedFields options)) as [t|] eqn:Hm.
      * exists t. by apply firstMissing_Some.
      * destruct (Hcases eq_refl) as (nc & Hnc & Hok & Hzero).
        destruct (decide (SimulationGasLimit nc = Some 0%N)) as [Hz|Hnz].
        -- rewrite (Hzero Hz) in Hres. discriminate.
        -- destruct (Hok Hnz) as [h Hh]. rewrite Hh in Hres. discriminate.
  - split.
    + intros [reason Hres]. destruct (firstMissing (checkedFields options)) as [t|] eqn:Hm.
      * rewrite NewAnteHandler_unfold, Hm in Hres. discriminate.
      * split; [done|]. destruct (Hcases eq_refl) as (nc & Hnc & Hok & Hzero).
        exists nc. split; [done|].
        destruct (decide (SimulationGasLimit nc = Some 0%N)) as [Hz|Hnz]; [done|].
        destruct (Hok Hnz) as [h Hh]. rewrite Hh in Hres. discriminate.
    + intros (Hnone & nc & Hnc & Hz). eexists.
      by apply (NewAnteHandler_zero_limit options nc).
Qed.

(** C4.  With the WASM node config and keeper in place (the constructor
    dereferences both) and a simulation gas limit that is not set to zero
    (the WASM gas-limit decorator's constructor panics on zero),
    [NewCosmosAnteHandler] composes, by [sdk.ChainAnteDecorators], a slice
    whose decorators are exactly those of the specification's ordering
    table, in its order, each once.  Fee deduction stands before
    signature-gas consumption and before signature verification, and
    sequence increment directly after signature verification. *)
Theorem NewCosmosAnteHandler_order (options : ante.HandlerOptions)
    (nc : NodeConfig) (wk : WasmKeeperT) :
  ante.NodeConfig options = Some nc ->
  ante.WasmKeeper options = Some wk ->
  SimulationGasLimit nc <> Some 0%N ->
  exists ds,
    ante.cosmosDecorators options = Done ds /\
    ante.NewCosmosAnteHandler options = Done (handlerChain ds) /\
    variantOf <$> ds = specCosmosOrdering /\
    NoDup (variantOf <$> ds) /\
    precedes fee_deductor signature_gas_consumer (variantOf <$> ds) /\
    precedes fee_deductor signature_verifier (variantOf <$> ds) /\
    precedes signature_verifier sequence_incrementer (variantOf <$> ds) /\
    position reject_unsupported_message (variantOf <$> ds) = Some 0%nat /\
    position gas_wanted_validator (variantOf <$> ds) =
      Some (length ds - 1)%nat.
Proof.
  intros Hnc Hwk Hlimit.
  destruct (cosmosDecorators_total options nc wk Hnc Hwk Hlimit) as (ds & Hds & Hne).
  exists ds. split; [done|].
  split. { unfold ante.NewCosmosAnteHandler. rewrite Hds. simpl.
           by rewrite ChainAnteDecorators_nonempty. }
  unfold ante.cosmosDecorators, ante.wasmDecorators in Hds.
  rewrite Hnc, Hwk in Hds. simpl in Hds.
  rewrite (NewLimitSimulationGasDecorator_nonzero _ Hlimit) in Hds.
  simpl in Hds. injection Hds as <-.
  split; [reflexivity|]. split.
  { refine (bool_decide_unpack _ _). vm_compute. exact I. }
  repeat split.
  - exists 14%nat, 17%nat. repeat split; [lia].
  - exists 14%nat, 18%nat. repeat split; [lia].
  - exists 18%nat, 19%nat. repeat split; [lia].
Qed.

(** C9.  The older constructor with both chains inline and the delegating
    constructor, given bundles that hold the same collaborators, build the
    same Cosmos slice and the same EVM slice and return the same result:
    the same error when a tested field is nil, and otherwise handlers that
    agree on every context, transaction, simulate flag and world. *)
Theorem inline_and_delegating_agree (o : app_inline.HandlerOptions) :
  app_inline.cosmosDecorators o = ante.cosmosDecorators (app_inline.asAnteOptions o) /\
  app_inline.evmDecorators o = ante.evmDecorators (app_inline.asAnteOptions o) /\
  app_inline.NewAnteHandler o = app.NewAnteHandler (app_inline.asAnteOptions o) /\
  (forall h1 h2 e1 e2,
     app_inline.NewAnteHandler o = Done (Some h1, e1) ->
     app.NewAnteHandler (app_inline.asAnteOptions o) = Done (Some h2, e2) ->
     forall ctx tx simulate w, h1 ctx tx simulate w = h2 ctx tx simulate w).
Proof.
  assert (Hcosmos : app_inline.cosmosDecorators o =
                    ante.cosmosDecorators (app_inline.asAnteOptions o)).
  { unfold app_inline.cosmosDecorators, ante.cosmosDecorators, ante.wasmDecorators.
    simpl. destruct (app_inline.NodeConfig o) as [nc|]; [|done]. simpl.
    destruct (wasmkeeper_NewLimitSimulationGasDecorator (SimulationGasLimit nc)); [|done].
    simpl. by destruct (app_inline.WasmKeeper o). }
  assert (Hsame : app_inline.NewAnteHandler o =
                  app.NewAnteHandler (app_inline.asAnteOptions o)).
  { unfold app_inline.NewAnteHandler, app.NewAnteHandler. simpl.
    repeat match goal with
           | |- context [is_nil ?x] => destruct (is_nil x) eqn:?; [reflexivity|]
           end.
    unfold ante.NewCosmosAnteHandler, ante.NewMonoEVMAnteHandler.
    rewrite <- Hcosmos.
    by destruct (app_inline.cosmosDecorators o). }
  split; [done|]. split; [done|]. split; [done|].
  intros h1 h2 e1 e2 H1 H2. rewrite Hsame, H2 in H1. by injection H1 as <-.
Qed.

End DispatchClaims.

(** ** Part II: runs of a chain of pass/abort decorators *)

Section StepRuns.
Context `{C : Collaborators}.
Import sdk.
Variable step : Decorator -> Step.

(** Entry [j] of the trace is decorator [j] of the chain, and every
    decorator before it passed. *)
Lemma runSteps_lookup (chain : list Decorator) (ctx : sdk_Context) (tx : sdk_Tx)
    (simulate : bool) (w : World) (j : nat) (d : Decorator) (v : Verdict) :
  (runSteps step chain ctx tx simulate w).1 !! j = Some (d, v) ->
  chain !! j = Some d /\
  forall i, (i < j)%nat ->
    exists d', chain !! i = Some d' /\
      (runSteps step chain ctx tx simulate w).1 !! i = Some (d', Passed).
Proof.
  revert ctx w j. induction chain as [|d0 rest IH]; intros ctx w j; simpl; [done|].
  destruct (step d0 ctx tx simulate w) as [[[ctx'|ctx' err] w']|r]; simpl.
  - destruct (runSteps step rest ctx' tx simulate w') as [executed out] eqn:Hrun.
    simpl. destruct j as [|j]; simpl.
    + intros [= <- <-]. split; [done|]. intros i Hi. lia.
    + intros Hj. specialize (IH ctx' w' j). rewrite Hrun in IH. simpl in IH.
      destruct (IH Hj) as [Hc Hbefore]. split; [done|].
      intros [|i] Hi; simpl; [by eauto|]. apply Hbefore. lia.
  - destruct j as [|j]; simpl; [|done].
    intros [= <- <-]. split; [done|]. intros i Hi. lia.
  - destruct j as [|j]; simpl; [|done].
    intros [= <- <-]. split; [done|]. intros i Hi. lia.
Qed.

(** A decorator that did not pass is the last one executed. *)
Lemma runSteps_stops (chain : list Decorator) (ctx : sdk_Context) (tx : sdk_Tx)
    (simulate : bool) (w : World) (j : nat) (d : Decorator) (v : Verdict) :
  (runSteps step chain ctx tx simulate w).1 !! j = Some (d, v) ->
  v <> Passed ->
  length (runSteps step chain ctx tx simulate w).1 = S j.
Proof.
  intros Hj Hv.
  destruct (decide (S j < length (runSteps step chain ctx tx simulate w).1)%nat)
    as [Hlt|Hge].
  - destruct (lookup_lt_is_Some_2 _ _ Hlt) as [[d' v'] Hnext].
    destruct (runSteps_lookup _ _ _ _ _ _ _ _ Hnext) as [_ Hbefore].
    destruct (Hbefore j) as (d'' & _ & Hpassed); [lia|]. congruence.
  - apply lookup_lt_Some in Hj. lia.
Qed.

(** A run that returns a nil error executed every decorator, and each
    passed. *)
Lemma runSteps_success (chain : list Decorator) (ctx : sdk_Context) (tx : sdk_Tx)
    (simulate : bool) (w : World) (ctx' : sdk_Context) (w' : World) :
  (runSteps step chain ctx tx simulate w).2 = Done ((ctx', None), w') ->
  (runSteps step chain ctx tx simulate w).1 = (fun d => (d, Passed)) <$> chain.
Proof.
  revert ctx w. induction chain as [|d rest IH]; intros ctx w; simpl; [done|].
  destruct (step d ctx tx simulate w) as [[[ctx1|ctx1 err] w1]|r]; simpl; try done.
  specialize (IH ctx1 w1).
  destruct (runSteps step rest ctx1 tx simulate w1) as [executed out]. simpl in *.
  intros Hout. by rewrite IH.
Qed.

(** A run that returns an error stopped at the first decorator that
    rejected: the decorators before it passed, it returned that context and
    error from the state they had produced, and no decorator after it was
    executed. *)
Lemma runSteps_failure (chain : list Decorator) (ctx : sdk_Context) (tx : sdk_Tx)
    (simulate : bool) (w : World) (ctx' : sdk_Context) (err : error) (w' : World) :
  (runSteps step chain ctx tx simulate w).2 = Done ((ctx', Some err), w') ->
  exists passed d notRun ctxk wk,
    chain = passed ++ d :: notRun /\
    (runSteps step chain ctx tx simulate w).1 =
      ((fun d => (d, Passed)) <$> passed) ++ [(d, Rejected err)] /\
    runSteps step passed ctx tx simulate w =
      ((fun d => (d, Passed)) <$> passed, Done ((ctxk, None), wk)) /\
    step d ctxk tx simulate wk = Done (Abort ctx' err, w').
Proof.
  revert ctx w. induction chain as [|d rest IH]; intros ctx w; simpl; [done|].
  destruct (step d ctx tx simulate w) as [[[ctx1|ctx1 err1] w1]|r] eqn:Hstep;
    simpl; try done.
  - specialize (IH ctx1 w1).
    destruct (runSteps step rest ctx1 tx simulate w1) as [executed out]. simpl in *.
    intros Hout. destruct (IH Hout) as (passed & dk & notRun & ctxk & wk & -> & -> & Hpre & Hk).
    exists (d :: passed), dk, notRun, ctxk, wk. simpl. rewrite Hstep, Hpre. done.
  - intros [= -> -> ->]. exists [], d, rest, ctx, w. done.
Qed.


(** A semantics that follows the contract runs a chain as [runSteps]
    does. *)
Lemma handlerChain_follows `{sem : !AnteSemantics} (chain : list Decorator)
    (ctx : sdk_Context) (tx : sdk_Tx) (simulate : bool) (w : World) :
  followsContract step ->
  handlerChain chain ctx tx simulate w = (runSteps step chain ctx tx simulate w).2.
Proof.
  intros Hcontract.
  revert ctx w. induction chain as [|d rest IH]; intros ctx w; simpl; [done|].
  rewrite Hcontract. unfold decoratorOfStep.
  destruct (step d ctx tx simulate w) as [[[ctx'|ctx' err] w']|r]; simpl; try done.
  rewrite IH. by destruct (runSteps step rest ctx' tx simulate w').
Qed.

Lemma failFast_handlerChain `{sem : !AnteSemantics} (chain : list Decorator)
    (ctx : sdk_Context) (tx : sdk_Tx) (simulate : bool) (w : World) :
  followsContract step ->
  failFast step chain ctx tx simulate w (handlerChain chain ctx tx simulate w).
Proof.
  intros Hcontract. unfold failFast.
  rewrite (handlerChain_follows chain ctx tx simulate w Hcontract).
  split; [done|]. split; [apply runSteps_failure|apply runSteps_success].
Qed.


End StepRuns.

Section ChainFacts.
Context `{C : Collaborators}.
Import sdk.



Lemma cosmosDecorators_variants (options : ante.HandlerOptions) (ds : list Decorator) :
  ante.cosmosDecorators options = Done ds -> variantOf <$> ds = specCosmosOrdering.
Proof.
  intros Hds.
  destruct (cosmosDecorators_Done options ds Hds) as (nc & wk & Hnc & Hwk & Hlimit).
  unfold ante.cosmosDecorators, ante.wasmDecorators in Hds.
  rewrite Hnc, Hwk in Hds. simpl in Hds.
  rewrite (NewLimitSimulationGasDecorator_nonzero _ Hlimit) in Hds.
  simpl in Hds. by injection Hds as <-.
Qed.



Lemma cosmosDecorators_at (options : ante.HandlerOptions) (ds : list Decorator)
    (j : nat) (v : Variant) :
  ante.cosmosDecorators options = Done ds -> specCosmosOrdering !! j = Some v ->
  exists d, ds !! j = Some d /\ variantOf d = v.
Proof.
  intros Hds Hj. rewrite <- (cosmosDecorators_variants options ds Hds) in Hj.
  rewrite list_lookup_fmap in Hj. destruct (ds !! j) as [d|]; [|done].
  injection Hj as <-. eauto.
Qed.





End ChainFacts.

Section ChainClaims.
Context `{C : Collaborators} `{sem : !sdk.AnteSemantics}.
Import sdk.


(** C6, as amended.  The handler of [NewAnteHandler] returns exactly what
    the chain it selects returns: the Cosmos chain for a transaction without
    extension options or with the dynamic-fee identifier first, the EVM
    chain for one with the Ethereum identifier first; for any other leading
    identifier it hands back the input context with the unknown-extension
    error and touches nothing.  For decorators that follow the pass/abort
    contract the selected run is fail-fast: the first decorator to reject
    ends it, the decorators before it have passed, none after it is
    executed, and the context, error and world returned are the ones that
    decorator returned from the state its predecessors had produced; nothing
    is restored.  A nil error means every decorator of the selected chain
    was executed, in order, and passed. *)
Theorem exit_contract (options : ante.HandlerOptions) (h : AnteHandler) :
  app.NewAnteHandler options = Done (Some h, None) ->
  exists ds,
    ante.cosmosDecorators options = Done ds /\
    forall (ctx : sdk_Context) (tx : sdk_Tx) (simulate : bool) (w : World),
      (HasExtensionOptionsTx tx = None \/ HasExtensionOptionsTx tx = Some [] ->
       h ctx tx simulate w = handlerChain ds ctx tx simulate w /\
       forall step, followsContract step ->
         failFast step ds ctx tx simulate w (h ctx tx simulate w)) /\
      (forall opt0 others,
         HasExtensionOptionsTx tx = Some (opt0 :: others) ->
         (TypeUrl opt0 = "/cosmos.evm.vm.v1.ExtensionOptionsEthereumTx" ->
          h ctx tx simulate w =
            handlerChain (ante.evmDecorators options) ctx tx simulate w /\
          forall step, followsContract step ->
            failFast step (ante.evmDecorators options) ctx tx simulate w
              (h ctx tx simulate w)) /\
         (TypeUrl opt0 = "/cosmos.evm.types.v1.ExtensionOptionDynamicFeeTx" ->
          h ctx tx simulate w = handlerChain ds ctx tx simulate w /\
          forall step, followsContract step ->
            failFast step ds ctx tx simulate w (h ctx tx simulate w)) /\
         (TypeUrl opt0 <> "/cosmos.evm.vm.v1.ExtensionOptionsEthereumTx" ->
          TypeUrl opt0 <> "/cosmos.evm.types.v1.ExtensionOptionDynamicFeeTx" ->
          h ctx tx simulate w =
            Done ((ctx, Some (unknownExtensionError (TypeUrl opt0))), w))).
Proof.
  intros Hnew.
  destruct (NewAnteHandler_built options _ _ Hnew) as (ds & Hds & _ & Hok).
  rewrite Hok in Hnew.
  assert (Hh : h = app.dispatch (handlerChain ds)
                     (handlerChain (ante.evmDecorators options))) by congruence.
  clear Hnew. subst h.
  exists ds. split; [done|]. intros ctx tx simulate w.
  assert (Hexit : forall chain,
    app.dispatch (handlerChain ds) (handlerChain (ante.evmDecorators options))
      ctx tx simulate w = handlerChain chain ctx tx simulate w ->
    app.dispatch (handlerChain ds) (handlerChain (ante.evmDecorators options))
      ctx tx simulate w = handlerChain chain ctx tx simulate w /\
    forall step, followsContract step ->
      failFast step chain ctx tx simulate w
        (app.dispatch (handlerChain ds) (handlerChain (ante.evmDecorators options))
           ctx tx simulate w)).
  { intros chain Heq. split; [done|]. intros step Hcontract. rewrite Heq.
    by apply failFast_handlerChain. }
  split.
  - intros Hext. apply Hexit. by rewrite dispatch_no_extension.
  - intros opt0 others Hext.
    pose proof (dispatch_first (handlerChain ds)
                  (handlerChain (ante.evmDecorators options))
                  ctx tx simulate opt0 others Hext) as Hd.
    split; [|split].
    + intros Hurl. apply Hexit. rewrite Hd.
      unfold EthereumTxTypeURL. by destruct (decide _).
    + intros Hurl. apply Hexit. rewrite Hd.
      unfold EthereumTxTypeURL, DynamicFeeTxTypeURL.
      destruct (decide _) as [E|_]; [by rewrite E in *|]. by destruct (decide _).
    + intros Hne1 Hne2. rewrite Hd.
      unfold EthereumTxTypeURL, DynamicFeeTxTypeURL.
      destruct (decide _); [done|]. by destruct (decide _).
Qed.


End ChainClaims.

(** ** The theorems on the test doubles *)

Section OnDoubles.
Import sdk doubles.
#[local] Existing Instance doubles.collaborators.

Lemma handler_built :
  app.NewAnteHandler (sem := semantics) fullOptions = Done (Some handler, None).
Proof. reflexivity. Qed.

Lemma doubles_contract : followsContract (sem := semantics) step.
Proof. by intros d ctx tx simulate next w. Qed.



(** Scenario A: no extension options, valid signature: accepted, the fee
    debited, the sequence advanced by one. *)
Example scenario_A :
  handler ctx0 (cosmosTx true) false world0 =
  Done (({| gasLimit := 200000 |}, None),
        {| gasConsumed := 1000; balance := 4000; sequence := 8; notified := 0 |}).
Proof. reflexivity. Qed.

(** Scenario C: Ethereum-routed, insufficient funds: rejected by the
    mono-decorator, no observer notified. *)
Example scenario_C :
  handler ctx0 (ethereumTx false) false world0 =
  Done ((ctx0, Some ErrInsufficientFunds), world0).
Proof. reflexivity. Qed.

Example ethereum_accepted_notifies :
  handler ctx0 (ethereumTx true) false world0 =
  Done ((ctx0, None),
        {| gasConsumed := 0; balance := 5000; sequence := 7; notified := 1 |}).
Proof. reflexivity. Qed.

(** A bundle with every tested field set and a simulation gas limit of
    zero: the construction panics. *)
Example zero_limit_bundle_panics :
  firstMissing (checkedFields zeroLimitOptions) = None /\
  app.NewAnteHandler (sem := semantics) zeroLimitOptions =
    Panicked "gas limit must not be zero".
Proof. split; reflexivity. Qed.

(** Witness of C1: the hypothesis holds for the handler built from the full
    bundle, which runs the EVM chain on an Ethereum-routed transaction. *)
Lemma NewAnteHandler_dispatch_witness :
  app.NewAnteHandler (sem := semantics) fullOptions = Done (Some handler, None) /\
  handler ctx0 (ethereumTx true) false =
  handlerChain (sem := semantics) (ante.evmDecorators fullOptions)
    ctx0 (ethereumTx true) false.
Proof.
  split; [reflexivity|].
  destruct (NewAnteHandler_dispatch (sem := semantics) fullOptions handler eq_refl)
    as (ds & _ & _ & Hroute).
  destruct (Hroute ctx0 (ethereumTx true) false) as [_ Hfirst].
  destruct (Hfirst {| TypeUrl := "/cosmos.evm.vm.v1.ExtensionOptionsEthereumTx";
                      Value := "" |} [] eq_refl) as (Heth & _ & _).
  exact (proj1 (Heth eq_refl (handlerChain (sem := semantics) []))).
Defined.

(** Witness of C2, which is scenario B: the leading identifier
    ["/unknown.v1.Bogus"] is rejected and nothing is consumed. *)
Lemma unknown_extension_rejected_witness :
  app.NewAnteHandler (sem := semantics) fullOptions = Done (Some handler, None) /\
  handler ctx0 bogusTx false world0 =
  Done ((ctx0,
         Some (errorsmod_Wrapf ErrUnknownExtensionOptions
                 "rejecting tx with unsupported extension option: %s"
                 ["/unknown.v1.Bogus"])), world0).
Proof.
  split; [reflexivity|].
  refine (proj1 (unknown_extension_rejected (sem := semantics) fullOptions handler
                   ctx0 bogusTx false world0
                   {| TypeUrl := "/unknown.v1.Bogus"; Value := "" |} []
                   eq_refl eq_refl _ _)); simpl; discriminate.
Defined.

(** Counterexample to C3 as stated: a bundle without a fee-grant store lacks
    one of the fields the specification lists as required, yet
    [NewAnteHandler] returns a handler and no error. *)
Lemma NewAnteHandler_accepts_nil_feegrant :
  missingPerSpec noFeegrantOptions = true /\
  (exists h, app.NewAnteHandler (sem := semantics) noFeegrantOptions
             = Done (Some h, None)) /\
  ~ (exists e, app.NewAnteHandler (sem := semantics) noFeegrantOptions
               = Done (None, Some e)).
Proof.
  split; [reflexivity|]. split.
  - eexists. reflexivity.
  - intros [e He]. discriminate He.
Qed.

(** Witness of C3 as amended: a bundle without an IBC keeper is refused with
    the error named after it. *)
Lemma NewAnteHandler_validation_witness :
  firstMissing (checkedFields noIBCOptions)
    = Some "ibc keeper is required for ante builder" /\
  app.NewAnteHandler (sem := semantics) noIBCOptions =
  Done (None, Some (errors_New "ibc keeper is required for ante builder")).
Proof.
  split; [reflexivity|].
  exact (proj2 (proj1 (NewAnteHandler_validation (sem := semantics) noIBCOptions)
                  "ibc keeper is required for ante builder" eq_refl)).
Defined.

(** Witness of C4 on the full bundle. *)
Lemma NewCosmosAnteHandler_order_witness :
  ante.NodeConfig fullOptions = Some {| SimulationGasLimit := Some 5000000%N |} /\
  ante.WasmKeeper fullOptions = Some tt /\
  Some 5000000%N <> Some 0%N /\
  exists ds,
    ante.cosmosDecorators fullOptions = Done ds /\
    variantOf <$> ds = specCosmosOrdering /\
    precedes fee_deductor signature_gas_consumer (variantOf <$> ds) /\
    precedes fee_deductor signature_verifier (variantOf <$> ds).
Proof.
  assert (Hlimit : Some 5000000%N <> Some 0%N) by discriminate.
  split; [reflexivity|]. split; [reflexivity|]. split; [exact Hlimit|].
  destruct (NewCosmosAnteHandler_order (sem := semantics) fullOptions
              {| SimulationGasLimit := Some 5000000%N |} tt eq_refl eq_refl Hlimit)
    as (ds & Hds & _ & Hvar & _ & Hgas & Hver & _).
  exists ds. by repeat split.
Defined.



(** Counterexample to C6 as stated: the chain fails at signature
    verification, and the context and world handed back with the error are
    not the pre-call ones: the gas limit installed by context set-up, the
    fee debit and the signature gas charge are all there. *)
Lemma failed_run_returns_mutated_context :
  handler ctx0 (cosmosTx false) false world0 =
  Done (({| gasLimit := 200000 |}, Some ErrUnauthorized),
        {| gasConsumed := 1000; balance := 4000; sequence := 7; notified := 0 |}) /\
  {| gasLimit := 200000 |} <> ctx0 /\
  {| gasConsumed := 1000; balance := 4000; sequence := 7; notified := 0 |} <> world0.
Proof. split; [reflexivity|]. split; discriminate. Qed.

(** Witness of C6 as amended, on the same failing run: the transaction has
    no extension options, and the handler returns the fail-fast run of the
    Cosmos chain. *)
Lemma exit_contract_witness :
  app.NewAnteHandler (sem := semantics) fullOptions = Done (Some handler, None) /\
  HasExtensionOptionsTx (cosmosTx false) = Some [] /\
  exists ds,
    ante.cosmosDecorators fullOptions = Done ds /\
    handler ctx0 (cosmosTx false) false world0 =
      handlerChain (sem := semantics) ds ctx0 (cosmosTx false) false world0 /\
    failFast step ds ctx0 (cosmosTx false) false world0
      (handler ctx0 (cosmosTx false) false world0).
Proof.
  split; [reflexivity|]. split; [reflexivity|].
  destruct (exit_contract (sem := semantics) fullOptions handler eq_refl)
    as (ds & Hds & Hexit).
  exists ds. split; [exact Hds|].
  destruct (Hexit ctx0 (cosmosTx false) false world0) as [Hnone _].
  destruct (Hnone (or_intror eq_refl)) as [Hchain Hfast].
  split; [exact Hchain|]. exact (Hfast step doubles_contract).
Defined.



(** Witness of C9 on a full bundle of the older shape. *)
Lemma inline_and_delegating_agree_witness :
  app_inline.NewAnteHandler (sem := semantics) inlineOptions =
  app.NewAnteHandler (sem := semantics) (app_inline.asAnteOptions inlineOptions).
Proof.
  exact (proj1 (proj2 (proj2
    (inline_and_delegating_agree (sem := semantics) inlineOptions)))).
Defined.

End OnDoubles.

Section OnRegistry.
Import app_config doubles.
#[local] Existing Instance doubles.evmLib.

Example initEVM_default :
  initEVM "" registry0 =
  (None, {| denoms := ["kudos"; "kud"]; configured := Some 12000%N |}).
Proof. reflexivity. Qed.

Example initEVM_full_id_only :
  ChainsCoinInfo !! prefixBefore "-" "kudora_9000-1" = None /\
  initEVM "kudora_9000-1" registry0 =
  (None, {| denoms := ["kudos"; "kud"]; configured := Some 9000%N |}).
Proof. split; reflexivity. Qed.

(** Witness of C8: three goroutines, interleaved; the second is first into
    [Do]. *)
Lemma EVMAppOptions_exactly_once_witness :
  let sys := runSchedule [1; 0; 1; 2; 0; 2]%nat
               (launch ["kudora_9000-1"; "kudora_12000-1"; "bogus-1"] registry0) in
  initRuns sys.1 = ["kudora_12000-1"] /\
  (exists r, sys.2 !! 2%nat = Some (Returned r)) /\
  forall i r, sys.2 !! i = Some (Returned r) -> r = evmInitErr sys.1.
Proof.
  intros sys. split; [reflexivity|].
  pose proof (EVMAppOptions_exactly_once
                ["kudora_9000-1"; "kudora_12000-1"; "bogus-1"] registry0
                [1; 0; 1; 2; 0; 2]%nat) as (_ & _ & Hsame & Hret & _).
  split; [|exact Hsame].
  apply (Hret 2%nat); [simpl; lia|vm_compute; lia].
Defined.

(** Witness of C10: a chain id that is in the table neither in full nor by
    its prefix. *)
Lemma initEVM_unknown_chain_id_witness :
  ChainsCoinInfo !! prefixBefore "-" "osmosis-1" = None /\
  ChainsCoinInfo !! "osmosis-1" = None /\
  initEVM "osmosis-1" registry0 =
  (Some (fmt_Errorf "unknown chain id: %s (not found in ChainsCoinInfo)"
           ["osmosis-1"]), registry0).
Proof.
  split; [reflexivity|]. split; [reflexivity|].
  exact (proj2 (proj2 (proj2 (initEVM_unknown_chain_id "osmosis-1" registry0)))
           eq_refl eq_refl).
Defined.

End OnRegistry.

(** ** Further properties, part I: chain ids *)

Section SplitFacts.

Lemma Split_no_sep (s : string) (sep : ascii) :
  occurs sep s = false -> strings_Split s sep = [s].
Proof.
  induction s as [|c rest IH]; simpl; [done|].
  destruct (Ascii.eqb c sep); simpl; [done|].
  intros Hrest. by rewrite (IH Hrest).
Qed.

Lemma Split_sep (s : string) (sep : ascii) :
  occurs sep s = true -> (2 <= length (strings_Split s sep))%nat.
Proof.
  induction s as [|c rest IH]; simpl; [done|].
  destruct (Ascii.eqb c sep); simpl.
  - intros _. destruct (strings_Split_cons rest sep) as (p & ps & ->). simpl. lia.
  - intros Hrest. specialize (IH Hrest).
    destruct (strings_Split rest sep) as [|p ps]; simpl in *; lia.
Qed.

Lemma Split_length_lt_2 (s : string) (sep : ascii) :
  (length (strings_Split s sep) < 2)%nat <-> occurs sep s = false.
Proof.
  split.
  - intros Hlen. destruct (occurs sep s) eqn:Ho; [|done].
    apply Split_sep in Ho. lia.
  - intros Ho. rewrite (Split_no_sep s sep Ho). simpl. lia.
Qed.

Lemma afterLast_no_sep (s : string) (sep : ascii) :
  occurs sep s = false -> afterLast sep s = s.
Proof.
  destruct s as [|c rest]; simpl; [done|].
  destruct (Ascii.eqb c sep); simpl; [done|]. by intros ->.
Qed.

(** The last piece of a split is the text after the last separator. *)
Lemma indexLast_Split (s : string) (sep : ascii) :
  indexLast (strings_Split s sep) = afterLast sep s.
Proof.
  unfold indexLast. induction s as [|c rest IH]; [done|].
  cbn [strings_Split afterLast].
  destruct (strings_Split_cons rest sep) as (p & ps & Hsplit).
  destruct (Ascii.eqb c sep) eqn:Hc.
  - rewrite Hsplit in *. change (List.last (EmptyString :: p :: ps) EmptyString)
      with (List.last (p :: ps) EmptyString). rewrite IH.
    destruct (occurs sep rest) eqn:Ho; [done|]. by apply afterLast_no_sep.
  - rewrite Hsplit in *. destruct (occurs sep rest) eqn:Ho.
    + apply Split_sep in Ho. rewrite Hsplit in Ho.
      destruct ps as [|p' ps']; [simpl in Ho; lia|].
      change (List.last (String c p :: p' :: ps') EmptyString)
        with (List.last (p :: p' :: ps') EmptyString). exact IH.
    + rewrite (Split_no_sep rest sep Ho) in Hsplit. by injection Hsplit as <- <-.
Qed.

(** The model of [strings.Split] loses nothing: joining the pieces with the
    separator gives the string back, and no piece holds the separator. *)
Lemma Split_Join (s : string) (sep : ascii) :
  strings_Join (strings_Split s sep) sep = s.
Proof.
  induction s as [|c rest IH]; [done|]. cbn [strings_Split].
  destruct (strings_Split_cons rest sep) as (p & ps & Hsplit).
  rewrite Hsplit in *. destruct (Ascii.eqb c sep) eqn:Hc.
  - apply Ascii.eqb_eq in Hc as ->.
    change (strings_Join (EmptyString :: p :: ps) sep)
      with (String sep (strings_Join (p :: ps) sep)). by rewrite IH.
  - destruct ps as [|p' ps'].
    + simpl in *. by rewrite IH.
    + change (strings_Join (String c p :: p' :: ps') sep)
        with (String c (strings_Join (p :: p' :: ps') sep)). by rewrite IH.
Qed.

Lemma Split_pieces (s : string) (sep : ascii) :
  Forall (fun piece => occurs sep piece = false) (strings_Split s sep).
Proof.
  induction s as [|c rest IH]; cbn [strings_Split]; [by repeat constructor|].
  destruct (Ascii.eqb c sep) eqn:Hc; [by constructor|].
  destruct (strings_Split rest sep) as [|p ps].
  - repeat constructor. simpl. by rewrite Hc.
  - apply Forall_cons in IH as [Hp Hps]. constructor; [|done]. simpl. by rewrite Hc.
Qed.

Lemma prefixBefore_no_sep (s : string) (sep : ascii) :
  occurs sep (prefixBefore sep s) = false.
Proof.
  induction s as [|c rest IH]; simpl; [done|].
  destruct (Ascii.eqb c sep) eqn:Hc; simpl; [done|]. by rewrite Hc.
Qed.

Lemma prefixBefore_app (p rest : string) (sep : ascii) :
  occurs sep p = false -> prefixBefore sep (p +:+ String sep rest) = p.
Proof.
  induction p as [|c p IH]; simpl.
  - intros _. by rewrite Ascii.eqb_refl.
  - destruct (Ascii.eqb c sep); simpl; [done|]. intros Hp. by rewrite IH.
Qed.

Lemma afterLast_app (p rest : string) (sep : ascii) :
  occurs sep rest = false -> afterLast sep (p +:+ String sep rest) = rest.
Proof.
  intros Hrest. induction p as [|c p IH]; simpl.
  - by rewrite Hrest, Ascii.eqb_refl.
  - assert (Ho : occurs sep (p +:+ String sep rest) = true).
    { clear IH. induction p as [|c' p IHp]; simpl.
      - by rewrite Ascii.eqb_refl.
      - rewrite IHp. by destruct (Ascii.eqb c' sep). }
    by rewrite Ho.
Qed.

End SplitFacts.

Section ChainIDFacts.
Context `{L : EvmLib}.
Import app_config.

#[local] Instance acceptedChainID_dec (cid : string) : Decision (acceptedChainID cid).
Proof. unfold acceptedChainID. apply _. Defined.

Lemma ChainsCoinInfo_lookup (k : string) :
  ChainsCoinInfo !! k =
  if decide (k = "kudora_12000-1" \/ k = "kudora_12000" \/ k = "kudora_9000-1")
  then Some kudoraCoinInfo else None.
Proof.
  unfold ChainsCoinInfo, DefaultChainID. rewrite !lookup_insert, lookup_empty.
  repeat destruct (decide _); try done; exfalso; intuition congruence.
Qed.

(** The two lookups of [initEVM] find the one coin info of the table
    exactly for the accepted chain ids. *)
Lemma lookup_accepted (cid : string) :
  match ChainsCoinInfo !! prefixBefore "-" cid with
  | Some coinInfo => Some coinInfo
  | None => ChainsCoinInfo !! cid
  end = if decide (acceptedChainID cid) then Some kudoraCoinInfo else None.
Proof.
  pose proof (prefixBefore_no_sep cid "-") as Hp.
  rewrite !ChainsCoinInfo_lookup. unfold acceptedChainID.
  destruct (decide (prefixBefore "-" cid = "kudora_12000-1" \/ _)) as [[E|[E|E]]|Hnp].
  - rewrite E in Hp. discriminate Hp.
  - destruct (decide _) as [|Hn]; [done|]. destruct Hn. by right.
  - rewrite E in Hp. discriminate Hp.
  - destruct (decide (cid = "kudora_12000-1" \/ _)) as [[E|[E|E]]|Hnc].
    + subst cid. destruct Hnp. right. by left.
    + subst cid. destruct Hnp. right. by left.
    + destruct (decide _) as [|Hn]; [done|]. destruct Hn. by left.
    + destruct (decide _) as [[E|E]|]; [| |done].
      * destruct Hnc. by right; right.
      * destruct Hnp. right. by left.
Qed.

(** [initEVM] with the lookup resolved. *)
Lemma initEVM_resolved (chainID : string) (g : Globals) :
  let cid := if decide (chainID = "") then DefaultChainID else chainID in
  initEVM chainID g =
  if decide (acceptedChainID cid) then
    match setBaseDenom kudoraCoinInfo g with
    | (Some err, g1) =>
        (Some (fmt_Errorf_w "failed to set base denom: %w" [] err), g1)
    | (None, g1) =>
        match parseEVMChainID cid with
        | inr err =>
            (Some (fmt_Errorf_w "failed to parse evm chain id from %q: %w" [cid] err), g1)
        | inl evmChainID =>
            match EVMConfigurator_Configure
                    (evmtypes_DefaultChainConfig evmChainID) kudoraCoinInfo g1 with
            | (Some err, g2) =>
                (Some (fmt_Errorf_w "failed to configure EVM: %w" [] err), g2)
            | (None, g2) => (None, g2)
            end
        end
    end
  else
    (Some (fmt_Errorf "unknown chain id: %s (not found in ChainsCoinInfo)" [cid]), g).
Proof.
  intros cid. unfold initEVM. fold cid.
  rewrite index0_Split_prefix, lookup_accepted.
  by destruct (decide (acceptedChainID cid)).
Qed.

(** X1.  [parseEVMChainID] on the trimmed id: an empty id is refused; an id
    that [strconv.ParseUint] accepts whole is returned as that number;
    otherwise an id without ["_"] is refused, and for an id with one the
    number is read from the text after the last ["_"] up to the first ["-"]
    that follows, nothing else of the id being consulted. *)
Theorem parseEVMChainID_reads_between (chainID : string) :
  let t := strings_TrimSpace chainID in
  let evmPart := prefixBefore "-" (afterLast "_" t) in
  (t = "" -> parseEVMChainID chainID = inr (fmt_Errorf "empty chain id" [])) /\
  (forall n, t <> "" -> strconv_ParseUint t = inl n -> parseEVMChainID chainID = inl n) /\
  (forall e, t <> "" -> strconv_ParseUint t = inr e -> occurs "_" t = false ->
     parseEVMChainID chainID =
       inr (fmt_Errorf "cannot extract evm chain id from %q" [t])) /\
  (forall e, t <> "" -> strconv_ParseUint t = inr e -> occurs "_" t = true ->
     parseEVMChainID chainID =
       match strconv_ParseUint evmPart with
       | inl n => inl n
       | inr err =>
           inr (fmt_Errorf_w "invalid evm chain id %q in %q: %w" [evmPart; t] err)
       end).
Proof.
  intros t evmPart. unfold parseEVMChainID. fold t.
  split; [|split; [|split]].
  - intros ->. done.
  - intros n Hne Hn. destruct (decide (t = "")); [done|]. by rewrite Hn.
  - intros e Hne He Ho. destruct (decide (t = "")); [done|]. rewrite He.
    apply Split_length_lt_2 in Ho. by destruct (decide _).
  - intros e Hne He Ho. destruct (decide (t = "")); [done|]. rewrite He.
    destruct (decide (length (strings_Split t "_") < 2)%nat) as [Hlt|_].
    { apply Split_length_lt_2 in Hlt. congruence. }
    rewrite indexLast_Split, index0_Split_prefix. done.
Qed.

(** X2.  [initEVM] answers "unknown chain id" exactly for the ids that are
    not accepted.  Accepted are ["kudora_9000-1"] and every id whose prefix
    before the first ["-"] is ["kudora_12000"]: the mainnet id with any
    revision, but the development id with revision 1 only. *)
Theorem initEVM_accepted_ids (chainID : string) (g : Globals) :
  let cid := if decide (chainID = "") then DefaultChainID else chainID in
  ((exists e g', initEVM chainID g = (Some e, g') /\ isUnknownChainID e) <->
   ~ acceptedChainID cid) /\
  (forall rev, acceptedChainID ("kudora_12000-" +:+ rev)) /\
  (forall rev, acceptedChainID ("kudora_9000-" +:+ rev) <-> rev = "1").
Proof.
  intros cid. split; [|split].
  - rewrite initEVM_resolved. fold cid. destruct (decide (acceptedChainID cid)) as [Ha|Hn].
    + split; [|done]. intros (e & g' & Hinit & Hunk). exfalso.
      destruct (setBaseDenom kudoraCoinInfo g) as [[e1|] g1].
      { injection Hinit as <- _. by apply wrapped_not_unknown in Hunk. }
      destruct (parseEVMChainID cid) as [n|e2].
      2:{ injection Hinit as <- _. by apply wrapped_not_unknown in Hunk. }
      destruct (EVMConfigurator_Configure _ kudoraCoinInfo g1) as [[e3|] g3].
      * injection Hinit as <- _. by apply wrapped_not_unknown in Hunk.
      * discriminate Hinit.
    + split; [done|]. intros _. eexists _, _. split; [reflexivity|]. by eexists.
  - intros rev. right. apply (prefixBefore_app "kudora_12000" rev "-"). done.
  - intros rev. unfold acceptedChainID. split.
    + intros [E|E].
      * by injection E.
      * simpl in E. discriminate E.
    + intros ->. by left.
Qed.

(** X3.  [initEVM] returns nil exactly when the id is accepted, both
    denominations register, the EVM chain id parses, and the configuration
    is accepted; the coin info is the same for every accepted id.  When the
    parse fails, the state returned is the one in which both denominations
    are already registered: nothing is undone. *)
Theorem initEVM_success (chainID : string) (g g' : Globals) :
  let cid := if decide (chainID = "") then DefaultChainID else chainID in
  (initEVM chainID g = (None, g') <->
   acceptedChainID cid /\
   exists g1 n,
     setBaseDenom kudoraCoinInfo g = (None, g1) /\
     parseEVMChainID cid = inl n /\
     EVMConfigurator_Configure (evmtypes_DefaultChainConfig n) kudoraCoinInfo g1
       = (None, g')) /\
  (forall g1 err,
     acceptedChainID cid ->
     setBaseDenom kudoraCoinInfo g = (None, g1) ->
     parseEVMChainID cid = inr err ->
     initEVM chainID g =
       (Some (fmt_Errorf_w "failed to parse evm chain id from %q: %w" [cid] err), g1)).
Proof.
  intros cid. rewrite initEVM_resolved. fold cid. split.
  - destruct (decide (acceptedChainID cid)) as [Ha|Hn].
    + split.
      * intros Hinit. split; [done|].
        destruct (setBaseDenom kudoraCoinInfo g) as [[e1|] g1]; [done|].
        destruct (parseEVMChainID cid) as [n|e2]; [|done].
        exists g1, n. split; [done|]. split; [done|].
        by destruct (EVMConfigurator_Configure _ kudoraCoinInfo g1) as [[e3|] g3].
      * intros (_ & g1 & n & -> & -> & ->). done.
    + split; [done|]. by intros [Ha _].
  - intros g1 err Ha Hreg Hparse.
    destruct (decide (acceptedChainID cid)); [|done]. by rewrite Hreg, Hparse.
Qed.

(** X4.  For the mainnet id with any revision free of ["_"], the EVM chain
    id is read from the piece ["12000"]: when the libraries leave the id
    untrimmed, refuse it as a whole number and parse ["12000"] as
    [EVMChainID], the EVM is configured with the constant [EVMChainID]. *)
Theorem parseEVMChainID_mainnet (rev : string) :
  let cid := "kudora_12000-" +:+ rev in
  occurs "_" rev = false ->
  strings_TrimSpace cid = cid ->
  (exists e, strconv_ParseUint cid = inr e) ->
  strconv_ParseUint "12000" = inl EVMChainID ->
  parseEVMChainID cid = inl EVMChainID /\
  forall g g1,
    setBaseDenom kudoraCoinInfo g = (None, g1) ->
    initEVM cid g =
    match EVMConfigurator_Configure
            (evmtypes_DefaultChainConfig EVMChainID) kudoraCoinInfo g1 with
    | (Some err, g2) => (Some (fmt_Errorf_w "failed to configure EVM: %w" [] err), g2)
    | (None, g2) => (None, g2)
    end.
Proof.
  intros cid Hrev Htrim [e He] H12000.
  assert (Hparse : parseEVMChainID cid = inl EVMChainID).
  { unfold parseEVMChainID. rewrite Htrim.
    destruct (decide (cid = "")) as [E|_]; [discriminate E|]. rewrite He.
    destruct (decide (length (strings_Split cid "_") < 2)%nat) as [Hlt|_].
    { apply Split_length_lt_2 in Hlt. discriminate Hlt. }
    rewrite indexLast_Split, index0_Split_prefix.
    change cid with ("kudora" +:+ String "_" ("12000-" +:+ rev)).
    rewrite afterLast_app by (simpl; exact Hrev).
    change (prefixBefore "-" ("12000-" +:+ rev)) with "12000". by rewrite H12000. }
  split; [done|]. intros g g1 Hreg.
  pose proof (initEVM_resolved cid g) as Hres. cbn zeta in Hres.
  destruct (decide (cid = "")) as [E|_]; [discriminate E|].
  rewrite Hres. destruct (decide (acceptedChainID cid)) as [_|Hn].
  - by rewrite Hreg, Hparse.
  - destruct Hn. right. apply (prefixBefore_app "kudora_12000" rev "-"). done.
Qed.

(** X5.  Every entry of [ChainsCoinInfo] agrees with the package set-up of
    [init()]: its base denomination is the bond denomination, base and
    extended denominations coincide, and its decimals are [BaseDenomUnit],
    the exponent of the power reduction. *)
Theorem ChainsCoinInfo_matches_init (k : string) (ci : evmtypes.EvmCoinInfo) :
  ChainsCoinInfo !! k = Some ci ->
  evmtypes.Denom ci = app_init.DefaultBondDenom /\
  evmtypes.ExtendedDenom ci = evmtypes.Denom ci /\
  evmtypes.DisplayDenom ci = DisplayDenom /\
  Z.of_N (evmtypes.Decimals ci) = BaseDenomUnit /\
  app_init.DefaultPowerReduction = (10 ^ Z.of_N (evmtypes.Decimals ci))%Z.
Proof.
  rewrite ChainsCoinInfo_lookup. destruct (decide _); [|done].
  intros [= <-]. done.
Qed.

End ChainIDFacts.

(** ** Further properties, part II: constructors and start-up wiring *)

Section ConstructorFacts.
Context `{C : Collaborators} `{sem : !sdk.AnteSemantics}.
Import sdk.



(** X6.  [NewCosmosAnteHandler] and [wasmDecorators], called on a bundle
    that was not validated, panic exactly when the WASM node config is nil,
    its simulation gas limit is set to zero, or the WASM keeper is nil, and
    in that order of precedence: a nil node config gives the nil
    dereference, a zero limit the panic of the gas-limit decorator's
    constructor even when the keeper is nil too, a nil keeper the nil
    dereference.  No other field can make them panic.
    [NewMonoEVMAnteHandler] dereferences nothing: it composes its two
    decorators for every bundle. *)
Theorem NewCosmosAnteHandler_panics (options : ante.HandlerOptions) :
  (ante.NodeConfig options = None ->
   ante.wasmDecorators options = Panicked nilDereference /\
   ante.NewCosmosAnteHandler options = Panicked nilDereference) /\
  (forall nc,
     ante.NodeConfig options = Some nc -> SimulationGasLimit nc = Some 0%N ->
     ante.wasmDecorators options = Panicked "gas limit must not be zero" /\
     ante.NewCosmosAnteHandler options = Panicked "gas limit must not be zero") /\
  (forall nc,
     ante.NodeConfig options = Some nc -> SimulationGasLimit nc <> Some 0%N ->
     ante.WasmKeeper options = None ->
     ante.wasmDecorators options = Panicked nilDereference /\
     ante.NewCosmosAnteHandler options = Panicked nilDereference) /\
  (forall nc wk,
     ante.NodeConfig options = Some nc -> SimulationGasLimit nc <> Some 0%N ->
     ante.WasmKeeper options = Some wk ->
     (exists wasm, ante.wasmDecorators options = Done wasm /\ length wasm = 4%nat) /\
     exists ds, ds <> [] /\
       ante.NewCosmosAnteHandler options = Done (handlerChain ds)) /\
  ((ante.NodeConfig options = None \/ ante.WasmKeeper options = None \/
    exists nc, ante.NodeConfig options = Some nc /\ SimulationGasLimit nc = Some 0%N)
   <-> exists reason, ante.NewCosmosAnteHandler options = Panicked reason) /\
  ((ante.NodeConfig options = None \/ ante.WasmKeeper options = None \/
    exists nc, ante.NodeConfig options = Some nc /\ SimulationGasLimit nc = Some 0%N)
   <-> exists reason, ante.wasmDecorators options = Panicked reason) /\
  ante.NewMonoEVMAnteHandler options = handlerChain (ante.evmDecorators options).
Proof.
  assert (Hnil : ante.NodeConfig options = None ->
    ante.wasmDecorators options = Panicked nilDereference /\
    ante.NewCosmosAnteHandler options = Panicked nilDereference).
  { intros Hnc.
    unfold ante.NewCosmosAnteHandler, ante.cosmosDecorators, ante.wasmDecorators.
    by rewrite Hnc. }
  assert (Hzero : forall nc,
    ante.NodeConfig options = Some nc -> SimulationGasLimit nc = Some 0%N ->
    ante.wasmDecorators options = Panicked "gas limit must not be zero" /\
    ante.NewCosmosAnteHandler options = Panicked "gas limit must not be zero").
  { intros nc Hnc Hz.
    destruct (cosmosDecorators_zero_limit options nc Hnc Hz) as [Hw Hc].
    split; [done|]. unfold ante.NewCosmosAnteHandler. by rewrite Hc. }
  assert (Hkeeper : forall nc,
    ante.NodeConfig options = Some nc -> SimulationGasLimit nc <> Some 0%N ->
    ante.WasmKeeper options = None ->
    ante.wasmDecorators options = Panicked nilDereference /\
    ante.NewCosmosAnteHandler options = Panicked nilDereference).
  { intros nc Hnc Hnz Hwk.
    unfold ante.NewCosmosAnteHandler, ante.cosmosDecorators, ante.wasmDecorators.
    rewrite Hnc, Hwk. simpl.
    by rewrite (NewLimitSimulationGasDecorator_nonzero _ Hnz). }
  assert (Hdone : forall nc wk,
    ante.NodeConfig options = Some nc -> SimulationGasLimit nc <> Some 0%N ->
    ante.WasmKeeper options = Some wk ->
    (exists wasm, ante.wasmDecorators options = Done wasm /\ length wasm = 4%nat) /\
    exists ds, ds <> [] /\
      ante.NewCosmosAnteHandler options = Done (handlerChain ds)).
  { intros nc wk Hnc Hnz Hwk. split.
    - unfold ante.wasmDecorators. rewrite Hnc, Hwk. simpl.
      rewrite (NewLimitSimulationGasDecorator_nonzero _ Hnz). simpl. by eexists.
    - destruct (cosmosDecorators_total options nc wk Hnc Hwk Hnz) as (ds & Hds & Hne).
      exists ds. split; [done|]. unfold ante.NewCosmosAnteHandler. rewrite Hds.
      simpl. by rewrite (ChainAnteDecorators_nonempty ds Hne). }
  assert (Hcases :
    (ante.NodeConfig options = None \/ ante.WasmKeeper options = None \/
     exists nc, ante.NodeConfig options = Some nc /\ SimulationGasLimit nc = Some 0%N) ->
    exists reason,
      ante.wasmDecorators options = Panicked reason /\
      ante.NewCosmosAnteHandler options = Panicked reason).
  { intros Hbad.
    destruct (ante.NodeConfig options) as [nc|] eqn:Hnc; [|by eexists; apply Hnil].
    destruct (decide (SimulationGasLimit nc = Some 0%N)) as [Hz|Hnz];
      [by eexists; apply (Hzero nc)|].
    destruct Hbad as [Hbad|[Hwk|(nc' & [= <-] & Hz)]]; [done| |done].
    eexists. by apply (Hkeeper nc). }
  assert (Hgood : forall reason,
    ante.wasmDecorators options = Panicked reason \/
    ante.NewCosmosAnteHandler options = Panicked reason ->
    ante.NodeConfig options = None \/ ante.WasmKeeper options = None \/
    exists nc, ante.NodeConfig options = Some nc /\ SimulationGasLimit nc = Some 0%N).
  { intros reason Hp.
    destruct (ante.NodeConfig options) as [nc|] eqn:Hnc; [|by left].
    destruct (decide (SimulationGasLimit nc = Some 0%N)) as [Hz|Hnz];
      [by right; right; exists nc|].
    destruct (ante.WasmKeeper options) as [wk|] eqn:Hwk; [|by right; left].
    destruct (Hdone nc wk eq_refl Hnz eq_refl) as [(wasm & Hw & _) (ds & _ & Hc)].
    rewrite Hw, Hc in Hp. by destruct Hp. }
  split; [exact Hnil|]. split; [exact Hzero|]. split; [exact Hkeeper|].
  split; [exact Hdone|]. split; [|split; [|reflexivity]].
  - split.
    + intros Hbad. destruct (Hcases Hbad) as (reason & _ & Hc). by exists reason.
    + intros [reason Hc]. apply (Hgood reason). by right.
  - split.
    + intros Hbad. destruct (Hcases Hbad) as (reason & Hw & _). by exists reason.
    + intros [reason Hw]. apply (Hgood reason). by left.
Qed.


End ConstructorFacts.

Section WiringFacts.
Context `{C : Collaborators} `{A : !AppLib} `{sem : !sdk.AnteSemantics}.
Import sdk app_wiring.






End WiringFacts.

(** ** The further properties on the test doubles *)

Section FurtherOnRegistry.
Import app_config doubles.
#[local] Existing Instance doubles.evmLib.

(** The two examples of the doc comment of [parseEVMChainID], and an id
    whose revision holds an underscore. *)
Example parseEVMChainID_examples :
  parseEVMChainID "kudora_12000-1" = inl 12000%N /\
  parseEVMChainID "12000" = inl 12000%N /\
  parseEVMChainID "kudora_12000-1_7" = inl 7%N.
Proof. repeat split. Qed.

Lemma parseEVMChainID_reads_between_witness :
  strings_TrimSpace "kudora_12000-1" <> "" /\
  strconv_ParseUint "kudora_12000-1" = inr (lib_error "strconv" 1) /\
  occurs "_" "kudora_12000-1" = true /\
  parseEVMChainID "kudora_12000-1" = inl 12000%N.
Proof.
  assert (Hne : strings_TrimSpace "kudora_12000-1" <> "") by discriminate.
  split; [exact Hne|]. split; [reflexivity|]. split; [reflexivity|].
  exact (proj2 (proj2 (proj2 (parseEVMChainID_reads_between "kudora_12000-1")))
           (lib_error "strconv" 1) Hne eq_refl eq_refl).
Defined.

Lemma initEVM_accepted_ids_witness :
  ~ acceptedChainID "kudora_9000-2" /\
  exists e g', initEVM "kudora_9000-2" registry0 = (Some e, g') /\ isUnknownChainID e.
Proof.
  assert (Hn : ~ acceptedChainID "kudora_9000-2").
  { intros [E|E]; [discriminate E|]. simpl in E. discriminate E. }
  split; [exact Hn|].
  exact (proj2 (proj1 (initEVM_accepted_ids "kudora_9000-2" registry0)) Hn).
Defined.

Lemma initEVM_success_witness :
  acceptedChainID "kudora_12000-a_b" /\
  initEVM "kudora_12000-a_b" registry0 =
  (Some (fmt_Errorf_w "failed to parse evm chain id from %q: %w" ["kudora_12000-a_b"]
           (fmt_Errorf_w "invalid evm chain id %q in %q: %w"
              ["b"; "kudora_12000-a_b"] (lib_error "strconv" 1))),
   {| denoms := ["kudos"; "kud"]; configured := None |}).
Proof.
  assert (Ha : acceptedChainID "kudora_12000-a_b") by (right; reflexivity).
  split; [exact Ha|].
  exact (proj2 (initEVM_success "kudora_12000-a_b" registry0 registry0)
           _ _ Ha eq_refl eq_refl).
Defined.

Lemma parseEVMChainID_mainnet_witness :
  occurs "_" "3" = false /\
  parseEVMChainID "kudora_12000-3" = inl EVMChainID.
Proof.
  split; [reflexivity|].
  exact (proj1 (parseEVMChainID_mainnet "3" eq_refl eq_refl
                  (ex_intro _ (lib_error "strconv" 1) eq_refl) eq_refl)).
Defined.

Lemma ChainsCoinInfo_matches_init_witness :
  ChainsCoinInfo !! "kudora_9000-1" = Some kudoraCoinInfo /\
  Z.of_N (evmtypes.Decimals kudoraCoinInfo) = BaseDenomUnit.
Proof.
  split; [reflexivity|].
  exact (proj1 (proj2 (proj2 (proj2
    (ChainsCoinInfo_matches_init "kudora_9000-1" kudoraCoinInfo eq_refl))))).
Defined.

End FurtherOnRegistry.

Section FurtherOnDoubles.
Import sdk doubles doubles_app app_wiring.
#[local] Existing Instance doubles.collaborators.
#[local] Existing Instance doubles.semantics.
#[local] Existing Instance doubles_app.appLib.

Lemma NewCosmosAnteHandler_panics_witness :
  ante.NodeConfig zeroLimitOptions = Some zeroConfig /\
  SimulationGasLimit zeroConfig = Some 0%N /\
  ante.NewCosmosAnteHandler zeroLimitOptions = Panicked "gas limit must not be zero".
Proof.
  split; [reflexivity|]. split; [reflexivity|].
  exact (proj2 (proj1 (proj2 (NewCosmosAnteHandler_panics zeroLimitOptions))
                  zeroConfig eq_refl eq_refl)).
Defined.

Example unvalidated_bundle_panics :
  ante.NewCosmosAnteHandler bareOptions = Panicked nilDereference.
Proof. reflexivity. Qed.




Example setAnteHandler_installs :
  exists app', setAnteHandler readyApp 0%N (Some tt) unsetConfig None = Done (None, app')
               /\ installed app' = true.
Proof. eexists. split; reflexivity. Qed.

Example setAnteHandler_zero_limit :
  setAnteHandler readyApp 0%N (Some tt) zeroConfig None =
    Panicked "gas limit must not be zero" /\
  exists app', setAnteHandler readyApp 0%N (Some tt)
                 (defaultSimulationGasLimit zeroConfig) None = Done (None, app')
               /\ installed app' = true.
Proof. split; [reflexivity|]. eexists. split; reflexivity. Qed.

End FurtherOnDoubles.
